(** * Voice-Agent-Leo: a shallow embedding of [main.py]

    The service accepts an uploaded recording, transcribes it, routes the
    transcript to the search skill, the news skill or the conversation flow,
    and synthesises the model reply as audio.  This development embeds the
    parts of [main.py] that carry the control flow: the history store, the
    prompt window, the prefix dispatch, the reply extraction, the chunk split
    and the handling of the temporary upload.

    Conventions.
    - A Python [str] is a Rocq [string]; a character is a code point below
      256, so [lower] and [strip] below follow Python on that range.
    - A parsed JSON document is a value of [json]; the dynamic checks Python
      performs on such values ([.get] on a non-dict, indexing, truthiness)
      are written out and raise where Python raises.
    - The endpoint is a computation in a state-and-exception monad over the
      history store, the upload directory and a trace of the calls made. *)

From Stdlib Require Import ZArith NArith Lia Ascii.
From stdpp Require Import gmap strings list fin_maps.

(* ===================================================================== *)
(** ** Python strings *)
(* ===================================================================== *)

Module PyStr.

(** [s[:n]] for [0 <= n]. *)
Fixpoint take (n : nat) (s : string) : string :=
  match n, s with
  | S n', String c s' => String c (take n' s')
  | _, _ => EmptyString
  end.

(** [s[n:]] for [0 <= n]. *)
Fixpoint drop (n : nat) (s : string) : string :=
  match n, s with
  | S n', String _ s' => drop n' s'
  | _, _ => s
  end.

(** [s[i:j]] for [0 <= i], [0 <= j]: both ends are clamped to the string,
    and an empty string results when [j <= i]. *)
Definition slice (s : string) (i j : nat) : string := take (j - i) (drop i s).

(** ["".join(l)]. *)
Fixpoint concat (l : list string) : string :=
  match l with
  | [] => EmptyString
  | s :: l' => s +:+ concat l'
  end.

(** [s.startswith(p)]. *)
Fixpoint startswith (s p : string) {struct p} : bool :=
  match p, s with
  | EmptyString, _ => true
  | String a p', String b s' => if decide (a = b) then startswith s' p' else false
  | String _ _, EmptyString => false
  end.

(** [c.isspace()] on code points below 256: TAB..CR, FS..US, SPACE,
    NEL (0x85) and NBSP (0xA0). *)
Definition isspace (c : ascii) : bool :=
  let n := Ascii.N_of_ascii c in
  ((9 <=? n) && (n <=? 13) || (28 <=? n) && (n <=? 32)
   || (n =? 133) || (n =? 160))%N.

(** [c.lower()] on code points below 256: A..Z and the Latin-1 capitals
    0xC0..0xDE (without the multiplication sign 0xD7) move up by 32. *)
Definition lower_char (c : ascii) : ascii :=
  let n := Ascii.N_of_ascii c in
  if ((65 <=? n) && (n <=? 90)
      || (192 <=? n) && (n <=? 222) && negb (n =? 215))%N
  then Ascii.ascii_of_N (n + 32) else c.

(** [s.lower()]. *)
Fixpoint lower (s : string) : string :=
  match s with
  | EmptyString => EmptyString
  | String c s' => String (lower_char c) (lower s')
  end.

(** [s.lstrip()]. *)
Fixpoint lstrip (s : string) : string :=
  match s with
  | EmptyString => EmptyString
  | String c s' => if isspace c then lstrip s' else s
  end.

(** [s.rstrip()]. *)
Fixpoint rstrip (s : string) : string :=
  match s with
  | EmptyString => EmptyString
  | String c s' =>
      match rstrip s' with
      | EmptyString => if isspace c then EmptyString else String c EmptyString
      | r => String c r
      end
  end.

(** [s.strip()]. *)
Definition strip (s : string) : string := rstrip (lstrip s).

(** Truth value of a [str]: non-empty. *)
Definition truthy (s : string) : bool :=
  match s with EmptyString => false | String _ _ => true end.

(** [c * n]: the string of [n] copies of the character [c]. *)
Fixpoint replicate (n : nat) (c : ascii) : string :=
  match n with
  | O => EmptyString
  | S n' => String c (replicate n' c)
  end.

End PyStr.

(** [range(start, stop, step)] for a positive [step]: Python computes its
    length as [ceil((stop - start) / step)] and its [k]-th element as
    [start + k * step]. *)
Definition py_range (start stop step : nat) : list nat :=
  map (fun k => start + k * step) (seq 0 ((stop - start + (step - 1)) / step)).

(* ===================================================================== *)
(** ** Chunk split of the reply (lines 203-204) *)
(* ===================================================================== *)

Definition maxlen : nat := 3000.

(** [[llm_reply[i:i + maxlen] for i in range(0, len(llm_reply), maxlen)]],
    for any window size. *)
Definition chunks_of (size : nat) (llm_reply : string) : list string :=
  map (fun i => PyStr.slice llm_reply i (i + size))
      (py_range 0 (String.length llm_reply) size).

Definition chunks (llm_reply : string) : list string := chunks_of maxlen llm_reply.

(** Ceiling of [a / b] on naturals. *)
Definition ceil_div (a b : nat) : nat := (a + (b - 1)) / b.

(* ===================================================================== *)
(** ** Parsed JSON and the dynamic operations the handlers apply to it *)
(* ===================================================================== *)

(** The value [response.json()] returns.  An object lists each key once, in
    the order of the dict. *)
#[warnings="-register-all"] Inductive json : Type :=
| JNull
| JBool (b : bool)
| JNum (n : Z)
| JStr (s : string)
| JArr (items : list json)
| JObj (fields : list (string * json)).

(** What a handler can raise: the instances of [Exception].
    [HTTPException] is FastAPI's; every other exception is a class name and
    a message.  What is not an [Exception] (a cancellation, an interrupt)
    is outside the model. *)
Inductive exn : Type :=
| HTTPException (status_code : Z) (detail : string)
| PyError (cls : string) (msg : string).

(** A computation that returns or raises. *)
Definition Res (A : Type) : Type := exn + A.

Global Instance Res_ret : MRet Res := fun A x => inr x.
Global Instance Res_bind : MBind Res := fun A B f m =>
  match m with
  | inl e => inl e
  | inr a => f a
  end.

Module Json.

(** [bool(j)]. *)
Definition truthy (j : json) : bool :=
  match j with
  | JNull => false
  | JBool b => b
  | JNum n => negb (n =? 0)%Z
  | JStr s => PyStr.truthy s
  | JArr items => match items with [] => false | _ => true end
  | JObj fields => match fields with [] => false | _ => true end
  end.

(** Lookup of a key in a dict. *)
Fixpoint assoc (k : string) (fields : list (string * json)) : option json :=
  match fields with
  | [] => None
  | (k', v) :: rest => if decide (k' = k) then Some v else assoc k rest
  end.

(** [j.get(k, dflt)]: only a dict has the method. *)
Definition get (j : json) (k : string) (dflt : json) : Res json :=
  match j with
  | JObj fields => inr (default dflt (assoc k fields))
  | _ => inl (PyError "AttributeError" "get")
  end.

(** [j[0]]. *)
Definition index0 (j : json) : Res json :=
  match j with
  | JArr (x :: _) => inr x
  | JArr [] => inl (PyError "IndexError" "list index out of range")
  | JStr (String c _) => inr (JStr (String c EmptyString))
  | JStr EmptyString => inl (PyError "IndexError" "string index out of range")
  | JObj _ => inl (PyError "KeyError" "0")
  | _ => inl (PyError "TypeError" "not subscriptable")
  end.

(** [j[k]] for a string key [k]. *)
Definition getitem (j : json) (k : string) : Res json :=
  match j with
  | JObj fields =>
      match assoc k fields with
      | Some v => inr v
      | None => inl (PyError "KeyError" k)
      end
  | JArr _ => inl (PyError "TypeError" "list indices must be integers or slices")
  | JStr _ => inl (PyError "TypeError" "string indices must be integers")
  | _ => inl (PyError "TypeError" "not subscriptable")
  end.

(** [p in s] on strings: [p] occurs in [s]. *)
Fixpoint substring_of (p s : string) : bool :=
  PyStr.startswith s p
  || match s with
     | EmptyString => false
     | String _ s' => substring_of p s'
     end.

(** [k in j] for a string [k]: key of a dict, substring of a string,
    element of a list. *)
Definition contains (k : string) (j : json) : Res bool :=
  match j with
  | JObj fields => inr (bool_decide (is_Some (assoc k fields)))
  | JStr s => inr (substring_of k s)
  | JArr items =>
      inr (existsb (fun x => match x with
                             | JStr s => bool_decide (s = k)
                             | _ => false
                             end) items)
  | _ => inl (PyError "TypeError" "argument is not iterable")
  end.

(** [j.strip()]: only a string has the method. *)
Definition strip (j : json) : Res string :=
  match j with
  | JStr s => inr (PyStr.strip s)
  | _ => inl (PyError "AttributeError" "strip")
  end.

End Json.

(* ===================================================================== *)
(** ** Data model *)
(* ===================================================================== *)

(** [{"role": role, "text": text}], an entry of a session's log. *)
Record Message : Type := mkMessage { role : string; text : string }.

(** [{"text": ...}] and [{"role": ..., "parts": [...]}], the provider's
    shape of a prompt entry. *)
Record Part : Type := mkPart { part_text : string }.
Record Content : Type := mkContent { content_role : string; parts : list Part }.

(** What [transcriber.transcribe] returns: [text] and [error] are each a
    string or [None]. *)
Record Transcript : Type := mkTranscript {
  transcript_text : option string;
  transcript_error : option string
}.

(** A provider's HTTP response: status, body text and the outcome of
    [resp.json()]. *)
Record HttpResponse : Type := mkHttpResponse {
  status_code : Z;
  body : string;
  json_body : Res json
}.

(** The dict the endpoint returns. *)
Record ChatResponse : Type := mkChatResponse {
  user_text : string;
  llm_text : string;
  audio_url : json
}.

(** The module-level keys read from the environment at import. *)
Record Config : Type := mkConfig {
  ASSEMBLYAI_API_KEY : option string;
  MURF_API_KEY : option string;
  GEMINI_API_KEY : option string;
  NEWSAPI_KEY : option string
}.

(** Truth value of a string-or-[None]. *)
Definition truthy_opt (o : option string) : bool :=
  match o with
  | None => false
  | Some s => PyStr.truthy s
  end.

(* ===================================================================== *)
(** ** Startup (lines 27-39) *)
(* ===================================================================== *)

(** The loop over the four keys: the first one that is unset or empty
    raises [RuntimeError]. *)
Fixpoint check_keys (keys : list (string * option string)) : Res unit :=
  match keys with
  | [] => inr tt
  | (key, value) :: rest =>
      if negb (truthy_opt value)
      then inl (PyError "RuntimeError" (key +:+ " not set in environment"))
      else check_keys rest
  end.

(** Import of the module for a given [os.getenv]. *)
Definition startup (getenv : string -> option string) : Res Config :=
  let cfg := {| ASSEMBLYAI_API_KEY := getenv "ASSEMBLYAI_API_KEY";
                MURF_API_KEY := getenv "MURF_API_KEY";
                GEMINI_API_KEY := getenv "GEMINI_API_KEY";
                NEWSAPI_KEY := getenv "NEWSAPI_KEY" |} in
  _ ← check_keys [("ASSEMBLYAI_API_KEY", ASSEMBLYAI_API_KEY cfg);
                  ("MURF_API_KEY", MURF_API_KEY cfg);
                  ("GEMINI_API_KEY", GEMINI_API_KEY cfg);
                  ("NEWSAPI_KEY", NEWSAPI_KEY cfg)];
  mret cfg.

(* ===================================================================== *)
(** ** History store (lines 58-70) *)
(* ===================================================================== *)

(** [chat_history_store.get(session_id, [])]. *)
Definition get_chat_history (store : gmap string (list Message))
    (session_id : string) : list Message :=
  default [] (store !! session_id).

(** Creates the session's list when the key is absent, then appends to the
    list held under the key. *)
Definition add_message_to_history (store : gmap string (list Message))
    (session_id role text : string) : gmap string (list Message) :=
  let store1 :=
    match store !! session_id with
    | None => <[session_id := []]> store
    | Some _ => store
    end in
  alter (fun log => log ++ [mkMessage role text]) session_id store1.

(** [l[start:]] for any integer [start]: a negative [start] counts from the
    end and is clamped at the beginning. *)
Definition slice_from {A} (start : Z) (l : list A) : list A :=
  if (start <? 0)%Z
  then drop (Z.to_nat (Z.of_nat (length l) + start)) l
  else drop (Z.to_nat start) l.

Definition to_content (msg : Message) : Content :=
  mkContent (role msg) [mkPart (text msg)].

(** [build_gemini_contents(session_id, limit)]. *)
Definition build_gemini_contents_limit (store : gmap string (list Message))
    (session_id : string) (limit : Z) : list Content :=
  let history := slice_from (- limit) (get_chat_history store session_id) in
  map to_content history.

(** The call with the default [limit = 5]. *)
Definition build_gemini_contents (store : gmap string (list Message))
    (session_id : string) : list Content :=
  build_gemini_contents_limit store session_id 5.

Definition PERSONA_PROMPT : string :=
  "You are Leo, a helpful and friendly AI assistant. "
  +:+ "You speak clearly, stay concise, and maintain a conversational tone. "
  +:+ "You blend warmth with intelligence, avoid being overly formal, "
  +:+ "and gently steer the conversation back if the user goes off-topic.".


(* ===================================================================== *)
(** ** The request handler's effects *)
(* ===================================================================== *)

(** The calls a request makes to the file system and to the providers, in
    the order they are issued. *)
Inductive Event : Type :=
| EvCreate (path : string)          (* NamedTemporaryFile(..., delete=False) *)
| EvUnlink (path : string)          (* os.unlink(path) that removed the file *)
| EvUnlinkMissing (path : string)   (* os.unlink(path) on a missing file *)
| EvTranscribe (path : string)      (* transcriber.transcribe(path) *)
| EvSearch (query : string)         (* simple_web_search(query) *)
| EvNews (topic : string)           (* the GET of get_latest_news(topic) *)
| EvGemini (contents : list Content) (* the POST to the model provider *)
| EvMurf (chunk : string).          (* the POST of generate_murf_audio(chunk) *)

(** What a request can read and change: the global [chat_history_store], the
    files of the uploads directory, and the calls issued so far. *)
Record State : Type := mkState {
  chat_history_store : gmap string (list Message);
  uploads : gset string;
  trace : list Event
}.

(** What the world answers during one request.  [exc_str] is [str(e)] and
    [json_str] the rendering of a JSON value inside an f-string, both as
    the libraries implement them; [temp_path] is the name
    [NamedTemporaryFile] picks; [copyfileobj] is [None] when the copy of the
    upload completes; the other fields are the providers' outcomes.
    [simple_web_search] stands for the search skill (lines 81-101): one GET
    whose answer it turns into a text. *)
Record Env : Type := mkEnv {
  exc_str : exn -> string;
  json_str : json -> string;
  temp_path : string;
  copyfileobj : option exn;
  transcribe : string -> Res Transcript;
  simple_web_search : string -> Res string;
  newsapi_get : string -> Res HttpResponse;
  gemini_post : list Content -> Res HttpResponse;
  murf_post : string -> Res HttpResponse
}.

(** State and exceptions: a computation maps the state to an outcome and
    the state it leaves, also when it raises. *)
Definition M (A : Type) : Type := State -> Res A * State.

Global Instance M_ret : MRet M := fun A x s => (inr x, s).
Global Instance M_bind : MBind M := fun A B f m s =>
  match m s with
  | (inl e, s') => (inl e, s')
  | (inr a, s') => f a s'
  end.

Definition raise {A} (e : exn) : M A := fun s => (inl e, s).

Definition lift {A} (r : Res A) : M A := fun s => (r, s).

Definition log_event (ev : Event) : M unit := fun s =>
  (inr tt, mkState (chat_history_store s) (uploads s) (trace s ++ [ev])).

(** [try: body / except Exception as e: handler(e)]. *)
Definition try_except {A} (body : M A) (handler : exn -> M A) : M A := fun s =>
  match body s with
  | (inl e, s') => handler e s'
  | (inr a, s') => (inr a, s')
  end.

(** [try: body / except Exception as e: handler(e) / finally: final].  The
    [finally] block runs after the body or the handler, whatever their
    outcome; when it raises, its exception replaces that outcome. *)
Definition try_except_finally {A} (body : M A) (handler : exn -> M A)
    (final : M unit) : M A := fun s =>
  let '(r, s1) := try_except body handler s in
  match final s1 with
  | (inl e, s2) => (inl e, s2)
  | (inr _, s2) => (r, s2)
  end.

(** [os.unlink(path)]: removes the file, or raises [FileNotFoundError]. *)
Definition os_unlink (path : string) : M unit := fun s =>
  if decide (path ∈ uploads s)
  then (inr tt, mkState (chat_history_store s) (uploads s ∖ {[path]})
                        (trace s ++ [EvUnlink path]))
  else (inl (PyError "FileNotFoundError" path),
        mkState (chat_history_store s) (uploads s)
                (trace s ++ [EvUnlinkMissing path])).

(** [add_message_to_history] on the global store. *)
Definition append_history (session_id role text : string) : M unit := fun s =>
  (inr tt, mkState (add_message_to_history (chat_history_store s) session_id role text)
                   (uploads s) (trace s)).

(** The results of a list of outcomes in order, or the first failure. *)
Fixpoint collect {A} (outcomes : list (Res A)) : Res (list A) :=
  match outcomes with
  | [] => inr []
  | inl e :: _ => inl e
  | inr a :: rest =>
      match collect rest with
      | inl e => inl e
      | inr l => inr (a :: l)
      end
  end.

(** [asyncio.gather] over tasks that have all been started: the list of
    their results when all succeed, else a failure.  Which failure surfaces
    depends on the order of completion; the first in list order is taken. *)
Definition gather {A} (outcomes : list (Res A)) : Res (list A) := collect outcomes.

(** [sep.join(l)]. *)
Fixpoint join (sep : string) (l : list string) : string :=
  match l with
  | [] => EmptyString
  | [s] => s
  | s :: l' => s +:+ sep +:+ join sep l'
  end.

Definition newline : string := String (Ascii.ascii_of_nat 10) EmptyString.

(** The status the client sees: the returned dict is a 200, an
    [HTTPException] carries its status, any other exception is answered by
    the framework with a 500. *)
Definition http_status {A} (r : Res A) : Z :=
  match r with
  | inr _ => 200
  | inl (HTTPException c _) => c
  | inl (PyError _ _) => 500
  end.

Section Endpoint.

Variable cfg : Config.
Variable env : Env.

(* --------------------------------------------------------------------- *)
(** *** News skill (lines 104-122) *)
(* --------------------------------------------------------------------- *)

(** [[f"- {article['title']}" for article in articles]] for a truthy
    [articles]: only a list iterates to dicts. *)
Definition headlines_of (articles : json) : Res (list string) :=
  match articles with
  | JArr items =>
      collect (map (fun article =>
                     title ← Json.getitem article "title";
                     mret ("- " +:+ match title with
                                    | JStr s => s
                                    | v => json_str env v
                                    end)) items)
  | JObj _ | JStr _ => inl (PyError "TypeError" "string indices must be integers")
  | _ => inl (PyError "TypeError" "object is not iterable")
  end.

Definition get_latest_news (topic : string) : M string :=
  if negb (truthy_opt (NEWSAPI_KEY cfg))
  then mret "NewsAPI key not configured; news feature unavailable."
  else
    _ ← log_event (EvNews topic);
    resp ← lift (newsapi_get env topic);
    if negb (status_code resp =? 200)%Z
    then mret "News service is currently unavailable."
    else
      data ← lift (json_body resp);
      articles ← lift (Json.get data "articles" (JArr []));
      if negb (Json.truthy articles)
      then mret ("No news found for '" +:+ topic +:+ "'.")
      else
        headlines ← lift (headlines_of articles);
        mret ("Here are the top headlines:" +:+ newline +:+ join newline headlines).

(* --------------------------------------------------------------------- *)
(** *** Saving and transcribing the upload (lines 128-146) *)
(* --------------------------------------------------------------------- *)

(** The [with NamedTemporaryFile(...)] block: the file exists from its
    creation on ([delete=False]), also when the copy raises. *)
Definition save_upload : M string := fun s =>
  let s1 := mkState (chat_history_store s) (uploads s ∪ {[temp_path env]})
                    (trace s ++ [EvCreate (temp_path env)]) in
  match copyfileobj env with
  | Some e => (inl e, s1)
  | None => (inr (temp_path env), s1)
  end.

(** The [try]/[except]/[finally] around the transcription. *)
Definition transcribe_upload (path : string) : M Transcript :=
  try_except_finally
    (_ ← log_event (EvTranscribe path);
     lift (transcribe env path))
    (fun e =>
       _ ← os_unlink path;
       raise (HTTPException 500 ("Transcription failed: " +:+ exc_str env e)))
    (os_unlink path).

(** The condition of line 143. *)
Definition transcript_rejected (transcript : Transcript) : bool :=
  truthy_opt (transcript_error transcript)
  || negb (truthy_opt (transcript_text transcript))
  || negb (PyStr.truthy (PyStr.strip (default EmptyString (transcript_text transcript)))).

(** [transcript.error or 'Empty text']. *)
Definition transcript_problem (transcript : Transcript) : string :=
  if truthy_opt (transcript_error transcript)
  then default EmptyString (transcript_error transcript)
  else "Empty text".

(* --------------------------------------------------------------------- *)
(** *** Conversation flow (lines 165-221) *)
(* --------------------------------------------------------------------- *)

(** The body of the [try] of lines 185-190: the value of [llm_reply] when
    it completes. *)
Definition extract_reply_body (llm_data : json) : Res (option string) :=
  candidates ← Json.get llm_data "candidates" (JArr []);
  if Json.truthy candidates then
    first ← Json.index0 candidates;
    content ← Json.get first "content" (JObj []);
    parts ← Json.get content "parts" (JArr []);
    if Json.truthy parts then
      part ← Json.index0 parts;
      has_text ← Json.contains "text" part;
      if has_text : bool then
        t ← Json.getitem part "text";
        reply ← Json.strip t;
        mret (Some reply)
      else mret None
    else mret None
  else mret None.

(** Lines 184-192: [llm_reply] starts as [None] and keeps that value when
    the extraction raises. *)
Definition extract_reply (llm_data : json) : option string :=
  match extract_reply_body llm_data with
  | inr llm_reply => llm_reply
  | inl _ => None
  end.

(** Lines 174-182. *)
Definition call_gemini (contents : list Content) : M json :=
  try_except
    (_ ← log_event (EvGemini contents);
     response ← lift (gemini_post env contents);
     if negb (status_code response =? 200)%Z
     then raise (HTTPException 500 ("Gemini API error: " +:+ body response))
     else lift (json_body response))
    (fun e => raise (HTTPException 500 ("Gemini call failed: " +:+ exc_str env e))).

(** [generate_murf_audio(chunk)] (lines 206-214), after its POST. *)
Definition generate_murf_audio (chunk : string) : Res json :=
  resp ← murf_post env chunk;
  data ← json_body resp;
  audioFile ← Json.get data "audioFile" JNull;
  url ← (if Json.truthy audioFile then mret audioFile
         else Json.get data "audio_url" JNull);
  if negb (Json.truthy url)
  then inl (HTTPException 500 "No audio from Murf for chunk")
  else mret url.

(** One POST per chunk is issued before any answer is awaited. *)
Fixpoint dispatch_murf (chunks : list string) : M unit :=
  match chunks with
  | [] => mret tt
  | chunk :: rest => _ ← log_event (EvMurf chunk); dispatch_murf rest
  end.

(** Lines 216-219. *)
Definition synthesize (chunks : list string) : M (list json) :=
  try_except
    (_ ← dispatch_murf chunks;
     lift (gather (map generate_murf_audio chunks)))
    (fun e => raise (HTTPException 500 ("Murf call failed: " +:+ exc_str env e))).

(** Line 171: the persona entry followed by the window of the history. *)
Definition gemini_contents (store : gmap string (list Message))
    (session_id : string) : list Content :=
  mkContent "model" [mkPart PERSONA_PROMPT] :: build_gemini_contents store session_id.

(** Lines 184-221: from the provider's answer to the returned dict. *)
Definition reply_and_synthesize (session_id user_text : string)
    (llm_data : json) : M ChatResponse :=
  let llm_reply := extract_reply llm_data in
  if negb (truthy_opt llm_reply)
  then raise (HTTPException 500 "LLM reply missing or empty")
  else
    let llm_reply := default EmptyString llm_reply in
    _ ← append_history session_id "model" llm_reply;
    audio_urls ← synthesize (chunks llm_reply);
    match audio_urls with
    | url :: _ => mret (mkChatResponse user_text llm_reply url)
    | [] => raise (PyError "IndexError" "list index out of range")
    end.

Definition conversation_flow (session_id user_text : string) : M ChatResponse :=
  _ ← append_history session_id "user" user_text;
  contents ← (fun s => (inr (gemini_contents (chat_history_store s) session_id), s));
  llm_data ← call_gemini contents;
  reply_and_synthesize session_id user_text llm_data.

(* --------------------------------------------------------------------- *)
(** *** The chat endpoint (lines 126-221) *)
(* --------------------------------------------------------------------- *)

(** Lines 152-155. *)
Definition search_branch (session_id user_text search_query : string)
    : M ChatResponse :=
  _ ← log_event (EvSearch search_query);
  search_result ← lift (simple_web_search env search_query);
  _ ← append_history session_id "user" user_text;
  _ ← append_history session_id "model" search_result;
  mret (mkChatResponse user_text search_result (JStr "")).

(** Lines 160-163. *)
Definition news_branch (session_id user_text topic : string) : M ChatResponse :=
  news_report ← get_latest_news topic;
  _ ← append_history session_id "user" user_text;
  _ ← append_history session_id "model" news_report;
  mret (mkChatResponse user_text news_report (JStr "")).

(** Lines 149-221, for the trimmed transcript. *)
Definition route (session_id user_text : string) : M ChatResponse :=
  if PyStr.startswith (PyStr.lower user_text) "search:" then
    search_branch session_id user_text
      (PyStr.strip (PyStr.drop (String.length "search:") user_text))
  else if PyStr.startswith (PyStr.lower user_text) "news:" then
    news_branch session_id user_text
      (PyStr.strip (PyStr.drop (String.length "news:") user_text))
  else conversation_flow session_id user_text.

Definition chat_with_history (session_id : string) : M ChatResponse :=
  path ← save_upload;
  transcript ← transcribe_upload path;
  if transcript_rejected transcript
  then raise (HTTPException 400 ("Transcription error: " +:+ transcript_problem transcript))
  else
    let user_text := PyStr.strip (default EmptyString (transcript_text transcript)) in
    route session_id user_text.

End Endpoint.

(* ===================================================================== *)
(** ** Sequences of appends *)
(* ===================================================================== *)

(** A run of [add_message_to_history] calls, oldest first; a call is the
    session id with the message it appends. *)
Definition add_messages (store : gmap string (list Message))
    (calls : list (string * Message)) : gmap string (list Message) :=
  foldl (fun st call => add_message_to_history st call.1 (role call.2) (text call.2))
        store calls.

(** The messages the calls append to one session, in call order. *)
Definition messages_for (session_id : string)
    (calls : list (string * Message)) : list Message :=
  snd <$> filter (fun call => call.1 = session_id) calls.

(** The store grows: every session keeps its log as a prefix of the new one. *)
Definition store_grows (s s' : State) : Prop :=
  forall session_id,
    get_chat_history (chat_history_store s) session_id
    `prefix_of` get_chat_history (chat_history_store s') session_id.

(** A computation under which the store only grows. *)
Definition grows {A} (m : M A) : Prop := forall s, store_grows s (m s).2.

(** The state in which routing starts: the upload has been created,
    transcribed and removed. *)
Definition after_transcription (env : Env) (s : State) : State :=
  mkState (chat_history_store s)
          ((uploads s ∪ {[temp_path env]}) ∖ {[temp_path env]})
          (trace s ++ [EvCreate (temp_path env); EvTranscribe (temp_path env);
                       EvUnlink (temp_path env)]).

(** The state in which the model provider has answered: the user message is
    in the log and the prompt has been sent. *)
Definition after_model_call (env : Env) (session_id user_text : string)
    (s : State) : State :=
  let store := add_message_to_history (chat_history_store s) session_id "user" user_text in
  mkState store
          ((uploads s ∪ {[temp_path env]}) ∖ {[temp_path env]})
          (trace s ++ [EvCreate (temp_path env); EvTranscribe (temp_path env);
                       EvUnlink (temp_path env);
                       EvGemini (gemini_contents store session_id)]).

(** A chunk whose synthesis request fails: the POST raises, or its body is
    not JSON, or the JSON object has neither [audioFile] nor [audio_url]. *)
Definition chunk_fails (env : Env) (chunk : string) : Prop :=
  (exists e, murf_post env chunk = inl e)
  \/ (exists resp,
        murf_post env chunk = inr resp
        /\ ((exists e, json_body resp = inl e)
            \/ (exists fields,
                  json_body resp = inr (JObj fields)
                  /\ Json.assoc "audioFile" fields = None
                  /\ Json.assoc "audio_url" fields = None))).

(** The characters of a string. *)
Fixpoint chars (s : string) : list ascii :=
  match s with
  | EmptyString => []
  | String c s' => c :: chars s'
  end.

(* ===================================================================== *)
(** ** Sample requests *)
(* ===================================================================== *)

Module Sample.

Definition cfg : Config :=
  mkConfig (Some "aai-key") (Some "murf-key") (Some "gemini-key") (Some "news-key").

Definition getenv (name : string) : option string := Some "key".

Definition fresh : State := mkState ∅ ∅ [].

Definition json_response (j : json) : HttpResponse := mkHttpResponse 200 "" (inr j).

(** A model answer carrying [reply] as its first candidate's first part. *)
Definition gemini_answer (reply : string) : json :=
  JObj [("candidates",
         JArr [JObj [("content",
                      JObj [("parts", JArr [JObj [("text", JStr reply)]]);
                            ("role", JStr "model")])]])].

(** A synthesis answer whose audio location is named after the chunk's
    first character. *)
Definition murf_answer (chunk : string) : json :=
  JObj [("audioFile",
         JStr ("https://murf.example/audio/" +:+ PyStr.take 1 chunk +:+ ".mp3"))].

(** A world in which the transcript is [transcript], the model provider
    answers [gemini] and the synthesis provider answers [murf]. *)
Definition world (transcript : Res Transcript) (gemini : json)
    (murf : string -> json) : Env :=
  mkEnv (fun _ => "error") (fun _ => "value") "uploads/tmp0.wav" None
        (fun _ => transcript)
        (fun _ => inr "It is sunny.")
        (fun _ => inr (json_response (JObj [("articles", JArr [])])))
        (fun _ => inr (json_response gemini))
        (fun chunk => inr (json_response (murf chunk))).

Definition heard (said : string) : Res Transcript :=
  inr (mkTranscript (Some said) None).

(** The transcription raises. *)
Definition transcription_down : Env :=
  world (inl (PyError "TimeoutError" "timed out")) JNull murf_answer.

(** The caller asks for a web search. *)
Definition asks_search : Env :=
  world (heard " Search: weather today ") JNull murf_answer.

(** The recording is silence. *)
Definition silence : Env := world (heard "   ") JNull murf_answer.

(** The model provider answers without any candidate. *)
Definition no_candidates : Env := world (heard "hello") (JObj []) murf_answer.

(** The synthesis provider answers without an audio location. *)
Definition no_audio : Env :=
  world (heard "hello") (gemini_answer "Hi there.") (fun _ => JObj []).

(** The model reply has 7000 characters. *)
Definition long_reply : string :=
  PyStr.replicate 3000 "a"%char +:+ PyStr.replicate 3000 "b"%char
  +:+ PyStr.replicate 1000 "c"%char.

Definition long_answer : Env :=
  world (heard "tell me a story") (gemini_answer long_reply) murf_answer.

End Sample.

(* ===================================================================== *)
(** ** Search skill (lines 81-101) *)
(* ===================================================================== *)

Module Skill.

(** A JSON value inside an f-string: a string stands for itself, any other
    value is rendered by the library. *)
Definition format_value (env : Env) (v : json) : string :=
  match v with
  | JStr s => s
  | _ => json_str env v
  end.

(** Line 82: the query goes into the URL as it is. *)
Definition search_url (query : string) : string :=
  "https://api.duckduckgo.com/?q=" +:+ query +:+ "&format=json".

(** Lines 90-96: what the [if topics:] block returns, or [None] when control
    leaves it without a [return]. *)
Definition first_topic_answer (env : Env) (topics : json) : Res (option json) :=
  if Json.truthy topics then
    first ← Json.index0 topics;
    has_text ← Json.contains "Text" first;
    if has_text : bool then
      v ← Json.getitem first "Text";
      mret (Some v)
    else
      has_url ← Json.contains "FirstURL" first;
      if has_url : bool then
        u ← Json.getitem first "FirstURL";
        mret (Some (JStr ("Here's a link: " +:+ format_value env u)))
      else mret None
  else mret None.

(** [simple_web_search(query)], for the outcome [get] of [client.get(url)].
    The value returned is the provider's own where the code returns a field
    as it is. *)
Definition simple_web_search (env : Env) (get : string -> Res HttpResponse)
    (query : string) : Res json :=
  resp ← get (search_url query);
  if (status_code resp =? 200)%Z then
    data ← json_body resp;
    abstract ← Json.get data "AbstractText" JNull;
    if Json.truthy abstract then mret abstract
    else
      topics ← Json.get data "RelatedTopics" (JArr []);
      answer ← first_topic_answer env topics;
      match answer with
      | Some v => mret v
      | None =>
          heading ← Json.get data "Heading" JNull;
          if Json.truthy heading
          then mret (JStr ("I found something about " +:+ format_value env heading
                           +:+ ", but details are limited."))
          else mret (JStr "No direct answer found, try refining your query.")
      end
  else mret (JStr "Web search service is currently unavailable.").

End Skill.

(* ===================================================================== *)
(** ** What a computation leaves alone *)
(* ===================================================================== *)

(** A computation that leaves one aspect [proj] of the state as it found
    it, whatever its outcome. *)
Definition preserves {A X} (proj : State -> X) (m : M A) : Prop :=
  forall s, proj (m s).2 = proj s.

(** A computation that raises only exceptions satisfying [P]. *)
Definition raises_only {A} (P : exn -> Prop) (m : M A) : Prop :=
  forall s e, (m s).1 = inl e -> P e.

(** An exception of the libraries, as opposed to the framework's
    [HTTPException]. *)
Definition library_error (e : exn) : Prop := exists cls msg, e = PyError cls msg.

(** The exceptions the endpoint lets through unchanged come from the
    libraries: the copy of the upload, the search skill, and the GET and the
    JSON decoding of the news skill. *)
Definition providers_raise_library_errors (env : Env) : Prop :=
  (forall e, copyfileobj env = Some e -> library_error e)
  /\ (forall q e, simple_web_search env q = inl e -> library_error e)
  /\ (forall topic e, newsapi_get env topic = inl e -> library_error e)
  /\ (forall topic resp e,
        newsapi_get env topic = inr resp -> json_body resp = inl e ->
        library_error e).

(** An exception the client sees as a 500. *)
Definition answered_500 (e : exn) : Prop := http_status (@inl exn unit e) = 500%Z.

(** The keys the startup loop checks, in its order. *)
Definition key_names : list string :=
  ["ASSEMBLYAI_API_KEY"; "MURF_API_KEY"; "GEMINI_API_KEY"; "NEWSAPI_KEY"].

(* ===================================================================== *)
(** ** Facts about Python strings *)
(* ===================================================================== *)

Module PyStrFacts.
Import PyStr.

Lemma app_nil_l (s : string) : EmptyString +:+ s = s.
Proof. reflexivity. Qed.

Lemma app_cons (c : ascii) (s t : string) : String c s +:+ t = String c (s +:+ t).
Proof. reflexivity. Qed.

Lemma app_nil_r (s : string) : s +:+ EmptyString = s.
Proof. induction s as [|c s IH]; [reflexivity|]. rewrite app_cons. by f_equal. Qed.

Lemma app_assoc (s t u : string) : (s +:+ t) +:+ u = s +:+ (t +:+ u).
Proof.
  induction s as [|c s IH]; [reflexivity|].
  rewrite !app_cons. by f_equal.
Qed.

Lemma length_app (s t : string) :
  String.length (s +:+ t) = String.length s + String.length t.
Proof.
  induction s as [|c s IH]; [reflexivity|].
  rewrite app_cons. simpl. by rewrite IH.
Qed.

Lemma length_take (n : nat) (s : string) :
  String.length (take n s) = Nat.min n (String.length s).
Proof.
  revert s. induction n as [|n IH]; intros [|c s]; simpl; try reflexivity.
  by rewrite IH.
Qed.

Lemma length_drop (n : nat) (s : string) :
  String.length (drop n s) = String.length s - n.
Proof.
  revert s. induction n as [|n IH]; intros [|c s]; simpl; try reflexivity.
  by rewrite IH.
Qed.

Lemma take_all (n : nat) (s : string) : String.length s <= n -> take n s = s.
Proof.
  revert s. induction n as [|n IH]; intros [|c s] Hlen; simpl in *;
    try reflexivity; try lia.
  f_equal. apply IH. lia.
Qed.

Lemma take_add (a b : nat) (s : string) :
  take (a + b) s = take a s +:+ take b (drop a s).
Proof.
  revert s. induction a as [|a IH]; intros s.
  - reflexivity.
  - destruct s as [|c s]; simpl.
    + by destruct b.
    + rewrite app_cons. f_equal. apply IH.
Qed.

Lemma drop_app_length (p r : string) : drop (String.length p) (p +:+ r) = r.
Proof. induction p as [|c p IH]; [by destruct r|]. rewrite app_cons. simpl. apply IH. Qed.

Lemma concat_app (l1 l2 : list string) :
  concat (l1 ++ l2) = concat l1 +:+ concat l2.
Proof.
  induction l1 as [|s l1 IH]; [reflexivity|].
  simpl. by rewrite IH, app_assoc.
Qed.

Lemma lower_app (s t : string) : lower (s +:+ t) = lower s +:+ lower t.
Proof.
  induction s as [|c s IH]; [reflexivity|].
  rewrite app_cons. simpl. rewrite app_cons. by f_equal.
Qed.

Lemma length_lower (s : string) : String.length (lower s) = String.length s.
Proof. induction s as [|c s IH]; [reflexivity|]. simpl. by rewrite IH. Qed.

Lemma startswith_app (p r : string) : startswith (p +:+ r) p = true.
Proof.
  induction p as [|c p IH]; [reflexivity|].
  rewrite app_cons. simpl. by rewrite decide_True.
Qed.

(** [startswith] holds exactly when the string is the prefix followed by a
    rest. *)
Lemma startswith_spec (s p : string) :
  startswith s p = true <-> exists r, s = p +:+ r.
Proof.
  split.
  - revert s. induction p as [|a p IH]; intros s H.
    + by exists s.
    + destruct s as [|b s]; [discriminate|]. simpl in H.
      destruct (decide (a = b)) as [->|]; [|discriminate].
      destruct (IH s H) as [r ->]. by exists r.
  - intros [r ->]. apply startswith_app.
Qed.

Lemma take_drop (n : nat) (s : string) : take n s +:+ drop n s = s.
Proof.
  revert s. induction n as [|n IH]; intros [|c s]; try reflexivity.
  simpl. rewrite app_cons. by f_equal.
Qed.

Lemma take_app_length (p r : string) : take (String.length p) (p +:+ r) = p.
Proof.
  induction p as [|c p IH]; [by destruct r|].
  rewrite app_cons. simpl. by f_equal.
Qed.

Lemma lower_take (n : nat) (s : string) : lower (take n s) = take n (lower s).
Proof.
  revert s. induction n as [|n IH]; intros [|c s]; try reflexivity.
  simpl. by f_equal.
Qed.

(** A text whose lower-case form starts with [q] splits into a prefix that
    is [q] up to case, and a rest. *)
Lemma startswith_lower_split (s q : string) :
  startswith (lower s) q = true ->
  s = take (String.length q) s +:+ drop (String.length q) s
  /\ lower (take (String.length q) s) = q.
Proof.
  intros [r Hr]%startswith_spec. split; [by rewrite take_drop|].
  by rewrite lower_take, Hr, take_app_length.
Qed.

Lemma lower_prefix_startswith (p r q : string) :
  lower p = q -> startswith (lower (p +:+ r)) q = true.
Proof. intros <-. rewrite lower_app. apply startswith_app. Qed.

Lemma lower_prefix_drop (p r q : string) :
  lower p = q -> drop (String.length q) (p +:+ r) = r.
Proof. intros <-. rewrite length_lower. apply drop_app_length. Qed.

End PyStrFacts.

(* ===================================================================== *)
(** ** The chunk split *)
(* ===================================================================== *)

Section ChunkSplit.

Variable size : nat.
Hypothesis size_pos : 0 < size.

Lemma ceil_div_covers (n : nat) : n <= ceil_div n size * size.
Proof.
  unfold ceil_div.
  pose proof (Nat.div_mod_eq (n + (size - 1)) size) as Hdm.
  pose proof (Nat.mod_upper_bound (n + (size - 1)) size) as Hlt.
  nia.
Qed.

Lemma length_chunks_of (s : string) :
  length (chunks_of size s) = ceil_div (String.length s) size.
Proof.
  unfold chunks_of, py_range, ceil_div.
  by rewrite !length_map, length_seq, Nat.sub_0_r.
Qed.

Lemma chunks_of_lookup (s : string) (k : nat) :
  k < length (chunks_of size s) ->
  chunks_of size s !! k = Some (PyStr.slice s (k * size) (k * size + size)).
Proof.
  rewrite length_chunks_of. intros Hk.
  unfold chunks_of, py_range. rewrite !list_lookup_fmap.
  rewrite Nat.sub_0_r. fold (ceil_div (String.length s) size).
  by rewrite lookup_seq_lt.
Qed.

Lemma chunks_of_bounded (s : string) :
  Forall (fun c => String.length c <= size) (chunks_of size s).
Proof.
  unfold chunks_of. apply Forall_fmap, Forall_forall. intros i _. simpl.
  unfold PyStr.slice. rewrite PyStrFacts.length_take. lia.
Qed.

Lemma concat_windows (s : string) (n : nat) :
  PyStr.concat (map (fun i => PyStr.slice s i (i + size))
                    (map (fun k => 0 + k * size) (seq 0 n)))
  = PyStr.take (n * size) s.
Proof.
  induction n as [|n IH]; [reflexivity|].
  rewrite seq_S, !map_app, PyStrFacts.concat_app, IH. simpl.
  rewrite PyStrFacts.app_nil_r. unfold PyStr.slice.
  replace (n * size + size - n * size) with size by lia.
  replace (size + n * size) with (n * size + size) by lia.
  by rewrite PyStrFacts.take_add.
Qed.

Lemma concat_chunks_of (s : string) : PyStr.concat (chunks_of size s) = s.
Proof.
  unfold chunks_of, py_range. rewrite concat_windows.
  apply PyStrFacts.take_all. rewrite Nat.sub_0_r.
  apply ceil_div_covers.
Qed.

Lemma ceil_div_pos (n : nat) : 0 < n -> 1 <= ceil_div n size.
Proof.
  intros Hn. unfold ceil_div.
  apply (Nat.div_le_lower_bound _ size 1); lia.
Qed.

End ChunkSplit.

Lemma maxlen_pos : 0 < maxlen.
Proof. unfold maxlen. lia. Qed.

(* ===================================================================== *)
(** ** The history store *)
(* ===================================================================== *)

Section HistoryStore.

Implicit Types (store : gmap string (list Message)) (msg : Message).

Lemma get_after_add_same store session_id r t :
  get_chat_history (add_message_to_history store session_id r t) session_id
  = get_chat_history store session_id ++ [mkMessage r t].
Proof.
  unfold get_chat_history, add_message_to_history.
  destruct (store !! session_id) as [log|] eqn:Hlog.
  - by rewrite lookup_alter_eq, Hlog.
  - by rewrite lookup_alter_eq, lookup_insert_eq.
Qed.

Lemma get_after_add_other store session_id other r t :
  session_id <> other ->
  get_chat_history (add_message_to_history store session_id r t) other
  = get_chat_history store other.
Proof.
  intros Hne. unfold get_chat_history, add_message_to_history.
  rewrite lookup_alter_ne by done.
  destruct (store !! session_id); [done|].
  by rewrite lookup_insert_ne.
Qed.

Lemma get_after_add store session_id other r t :
  get_chat_history (add_message_to_history store session_id r t) other
  = get_chat_history store other
    ++ (if decide (session_id = other) then [mkMessage r t] else []).
Proof.
  destruct (decide (session_id = other)) as [<-|Hne].
  - apply get_after_add_same.
  - rewrite get_after_add_other by done. by rewrite app_nil_r.
Qed.

Lemma get_after_add_messages store calls session_id :
  get_chat_history (add_messages store calls) session_id
  = get_chat_history store session_id ++ messages_for session_id calls.
Proof.
  revert store. induction calls as [|[sid [r t]] calls IH]; intros store.
  - unfold messages_for. simpl. by rewrite app_nil_r.
  - unfold add_messages in *. simpl. rewrite IH, get_after_add.
    unfold messages_for. rewrite filter_cons. simpl.
    destruct (decide (sid = session_id)); simpl.
    + by rewrite <- app_assoc.
    + by rewrite app_nil_r.
Qed.

Lemma messages_for_own session_id (msgs : list Message) :
  messages_for session_id (map (pair session_id) msgs) = msgs.
Proof.
  unfold messages_for. induction msgs as [|m msgs IH]; [done|].
  simpl. rewrite filter_cons. simpl. rewrite decide_True by done.
  simpl. by f_equal.
Qed.

Lemma slice_from_last {A} (limit : nat) (l : list A) :
  0 < limit ->
  slice_from (- Z.of_nat limit) l = drop (length l - limit) l.
Proof.
  intros Hpos. unfold slice_from.
  destruct (Z.ltb_spec (- Z.of_nat limit) 0); [|lia].
  f_equal. lia.
Qed.

Lemma build_gemini_contents_window store session_id :
  build_gemini_contents store session_id
  = map to_content
        (drop (length (get_chat_history store session_id) - 5)
              (get_chat_history store session_id)).
Proof.
  unfold build_gemini_contents, build_gemini_contents_limit.
  by rewrite (slice_from_last 5) by lia.
Qed.

End HistoryStore.

(* ===================================================================== *)
(** ** The store only grows *)
(* ===================================================================== *)

Section Growth.

Lemma store_grows_refl s : store_grows s s.
Proof. by intros sid. Qed.

Lemma store_grows_trans s1 s2 s3 :
  store_grows s1 s2 -> store_grows s2 s3 -> store_grows s1 s3.
Proof. intros H12 H23 sid. etrans; [apply H12 | apply H23]. Qed.

Lemma store_grows_same_store s s' :
  chat_history_store s' = chat_history_store s -> store_grows s s'.
Proof. intros Heq sid. by rewrite Heq. Qed.

Lemma grows_ret {A} (a : A) : grows (mret a).
Proof. intros s. apply store_grows_refl. Qed.

Lemma grows_raise {A} (e : exn) : grows (@raise A e).
Proof. intros s. apply store_grows_refl. Qed.

Lemma grows_lift {A} (r : Res A) : grows (lift r).
Proof. intros s. apply store_grows_refl. Qed.

Lemma grows_read {A} (f : State -> A) : grows (fun s => (inr (f s), s)).
Proof. intros s. apply store_grows_refl. Qed.

Lemma grows_log_event (ev : Event) : grows (log_event ev).
Proof. intros s. by apply store_grows_same_store. Qed.

Lemma grows_os_unlink (path : string) : grows (os_unlink path).
Proof.
  intros s. unfold os_unlink. destruct (decide _); by apply store_grows_same_store.
Qed.

Lemma grows_append_history (session_id r t : string) :
  grows (append_history session_id r t).
Proof.
  intros s sid. simpl. rewrite get_after_add. by apply prefix_app_r.
Qed.

Lemma grows_bind {A B} (m : M A) (f : A -> M B) :
  grows m -> (forall a, grows (f a)) -> grows (m ≫= f).
Proof.
  intros Hm Hf s. unfold mbind, M_bind.
  specialize (Hm s). destruct (m s) as [[e|a] s']; simpl in *; [done|].
  eapply store_grows_trans; [exact Hm|]. apply Hf.
Qed.

Lemma grows_try_except {A} (body : M A) (handler : exn -> M A) :
  grows body -> (forall e, grows (handler e)) -> grows (try_except body handler).
Proof.
  intros Hb Hh s. unfold try_except.
  specialize (Hb s). destruct (body s) as [[e|a] s']; simpl in *; [|done].
  eapply store_grows_trans; [exact Hb|]. apply Hh.
Qed.

Lemma grows_try_except_finally {A} (body : M A) (handler : exn -> M A)
    (final : M unit) :
  grows body -> (forall e, grows (handler e)) -> grows final ->
  grows (try_except_finally body handler final).
Proof.
  intros Hb Hh Hf s. unfold try_except_finally.
  pose proof (grows_try_except body handler Hb Hh s) as Hte.
  destruct (try_except body handler s) as [r s1]. simpl in Hte.
  specialize (Hf s1). destruct (final s1) as [[e|u] s2]; simpl in *;
    by eapply store_grows_trans.
Qed.

Lemma grows_dispatch_murf (l : list string) : grows (dispatch_murf l).
Proof.
  induction l as [|c l IH]; simpl.
  - apply grows_ret.
  - apply grows_bind; [apply grows_log_event|done].
Qed.

End Growth.

Create HintDb grows discriminated.
#[local] Hint Resolve grows_ret grows_raise grows_lift grows_read
  grows_log_event grows_os_unlink grows_append_history grows_dispatch_murf
  : grows.

(** Decomposes a [grows] goal along the structure of the computation. *)
Ltac grows_step :=
  match goal with
  | |- grows (mbind _ _) => apply grows_bind; [|intros]
  | |- grows (try_except _ _) => apply grows_try_except; [|intros]
  | |- grows (try_except_finally _ _ _) =>
      apply grows_try_except_finally; [|intros|]
  | |- grows (if ?b then _ else _) => destruct b
  | |- grows (match ?x with _ => _ end) => destruct x
  | |- grows _ => solve [auto with grows]
  end.

Section EndpointGrowth.

Variable cfg : Config.
Variable env : Env.

Lemma grows_get_latest_news topic : grows (get_latest_news cfg env topic).
Proof. unfold get_latest_news. repeat grows_step. Qed.

Lemma grows_save_upload : grows (save_upload env).
Proof.
  intros s. unfold save_upload.
  destruct (copyfileobj env); by apply store_grows_same_store.
Qed.

Lemma grows_transcribe_upload path : grows (transcribe_upload env path).
Proof. unfold transcribe_upload. repeat grows_step. Qed.

Lemma grows_call_gemini contents : grows (call_gemini env contents).
Proof. unfold call_gemini. repeat grows_step. Qed.

Lemma grows_synthesize l : grows (synthesize env l).
Proof. unfold synthesize. repeat grows_step. Qed.

Lemma grows_reply_and_synthesize sid user_text llm_data :
  grows (reply_and_synthesize env sid user_text llm_data).
Proof.
  unfold reply_and_synthesize.
  pose proof grows_synthesize. repeat grows_step.
Qed.

Lemma grows_conversation_flow sid user_text :
  grows (conversation_flow env sid user_text).
Proof.
  unfold conversation_flow.
  pose proof grows_call_gemini. pose proof grows_reply_and_synthesize.
  repeat grows_step.
Qed.

Lemma grows_route sid user_text : grows (route cfg env sid user_text).
Proof.
  unfold route, search_branch, news_branch.
  pose proof grows_conversation_flow. pose proof grows_get_latest_news.
  repeat grows_step.
Qed.

Lemma grows_chat_with_history sid : grows (chat_with_history cfg env sid).
Proof.
  unfold chat_with_history.
  pose proof grows_route. pose proof grows_save_upload.
  pose proof grows_transcribe_upload.
  repeat grows_step.
Qed.

End EndpointGrowth.

(* ===================================================================== *)
(** ** The stages of a request *)
(* ===================================================================== *)

Section Stages.

Variable cfg : Config.
Variable env : Env.

Lemma save_upload_ok s :
  copyfileobj env = None ->
  save_upload env s
  = (inr (temp_path env),
     mkState (chat_history_store s) (uploads s ∪ {[temp_path env]})
             (trace s ++ [EvCreate (temp_path env)])).
Proof. intros Hcopy. unfold save_upload. by rewrite Hcopy. Qed.

Lemma transcribe_upload_returns path t s :
  path ∈ uploads s ->
  transcribe env path = inr t ->
  transcribe_upload env path s
  = (inr t, mkState (chat_history_store s) (uploads s ∖ {[path]})
                    (trace s ++ [EvTranscribe path; EvUnlink path])).
Proof.
  intros Hin Htr.
  unfold transcribe_upload, try_except_finally, try_except, mbind, M_bind,
    log_event, lift, os_unlink.
  simpl. rewrite Htr. simpl. rewrite decide_True by done.
  by rewrite <- app_assoc.
Qed.

Lemma transcribe_upload_raises path e s :
  path ∈ uploads s ->
  transcribe env path = inl e ->
  transcribe_upload env path s
  = (inl (PyError "FileNotFoundError" path),
     mkState (chat_history_store s) (uploads s ∖ {[path]})
             (trace s ++ [EvTranscribe path; EvUnlink path; EvUnlinkMissing path])).
Proof.
  intros Hin Htr.
  unfold transcribe_upload, try_except_finally, try_except, mbind, M_bind,
    log_event, lift, os_unlink, raise.
  simpl. rewrite Htr. simpl. rewrite decide_True by done. simpl.
  rewrite decide_False
    by (apply not_elem_of_difference; right; by apply elem_of_singleton).
  by rewrite <- !app_assoc.
Qed.

Lemma chat_copy_raises sid e s :
  copyfileobj env = Some e ->
  chat_with_history cfg env sid s
  = (inl e, mkState (chat_history_store s) (uploads s ∪ {[temp_path env]})
                    (trace s ++ [EvCreate (temp_path env)])).
Proof.
  intros Hcopy. unfold chat_with_history, mbind, M_bind, save_upload.
  by rewrite Hcopy.
Qed.

Lemma chat_transcription_raises sid e s :
  copyfileobj env = None ->
  transcribe env (temp_path env) = inl e ->
  chat_with_history cfg env sid s
  = (inl (PyError "FileNotFoundError" (temp_path env)),
     mkState (chat_history_store s)
             ((uploads s ∪ {[temp_path env]}) ∖ {[temp_path env]})
             (trace s ++ [EvCreate (temp_path env); EvTranscribe (temp_path env);
                          EvUnlink (temp_path env);
                          EvUnlinkMissing (temp_path env)])).
Proof.
  intros Hcopy Htr. unfold chat_with_history, mbind at 1, M_bind at 1.
  rewrite (save_upload_ok _ Hcopy).
  unfold mbind, M_bind.
  rewrite (transcribe_upload_raises _ e) by (done || set_solver).
  simpl. by rewrite <- app_assoc.
Qed.

Lemma chat_transcribed sid t s :
  copyfileobj env = None ->
  transcribe env (temp_path env) = inr t ->
  chat_with_history cfg env sid s
  = (if transcript_rejected t
     then raise (HTTPException 400 ("Transcription error: " +:+ transcript_problem t))
     else route cfg env sid
            (PyStr.strip (default EmptyString (transcript_text t))))
      (after_transcription env s).
Proof.
  intros Hcopy Htr. unfold chat_with_history, mbind at 1, M_bind at 1.
  rewrite (save_upload_ok _ Hcopy).
  unfold mbind, M_bind.
  rewrite (transcribe_upload_returns _ t) by (done || set_solver).
  simpl. unfold after_transcription. by rewrite <- app_assoc.
Qed.

Lemma conversation_flow_answered sid user_text s resp llm_data :
  let store := add_message_to_history (chat_history_store s) sid "user" user_text in
  gemini_post env (gemini_contents store sid) = inr resp ->
  status_code resp = 200%Z ->
  json_body resp = inr llm_data ->
  conversation_flow env sid user_text s
  = reply_and_synthesize env sid user_text llm_data
      (mkState store (uploads s)
               (trace s ++ [EvGemini (gemini_contents store sid)])).
Proof.
  intros store Hpost Hstatus Hjson.
  unfold conversation_flow, call_gemini, try_except, mbind, M_bind,
    append_history, log_event, lift, raise.
  simpl. fold store. rewrite Hpost. simpl. rewrite Hstatus. simpl.
  by rewrite Hjson.
Qed.

Lemma dispatch_murf_run l s :
  dispatch_murf l s
  = (inr tt, mkState (chat_history_store s) (uploads s)
                     (trace s ++ map EvMurf l)).
Proof.
  revert s. induction l as [|c l IH]; intros s.
  - simpl. rewrite app_nil_r. by destruct s.
  - simpl. unfold mbind, M_bind, log_event. rewrite IH. simpl.
    by rewrite <- app_assoc.
Qed.

Lemma collect_fails {A} (outcomes : list (Res A)) (e : exn) :
  inl e ∈ outcomes -> exists e', collect outcomes = inl e'.
Proof.
  induction outcomes as [|[e0|a] outcomes IH]; intros Hin.
  - by apply elem_of_nil in Hin.
  - by exists e0.
  - apply elem_of_cons in Hin as [Heq|Hin]; [discriminate|].
    destruct (IH Hin) as [e' He']. exists e'. simpl. by rewrite He'.
Qed.



Lemma synthesize_fails l chunk e s :
  chunk ∈ l ->
  generate_murf_audio env chunk = inl e ->
  exists detail,
    synthesize env l s
    = (inl (HTTPException 500 detail),
       mkState (chat_history_store s) (uploads s) (trace s ++ map EvMurf l)).
Proof.
  intros Hin Hfail. unfold synthesize, try_except, mbind, M_bind, lift, raise.
  rewrite dispatch_murf_run. unfold gather.
  destruct (collect_fails (map (generate_murf_audio env) l) e) as [e' He'].
  { rewrite <- Hfail. by apply list_elem_of_fmap_2. }
  rewrite He'. by eexists.
Qed.

End Stages.

(* ===================================================================== *)
(** ** Routing *)
(* ===================================================================== *)

Section Routing.

Import PyStr PyStrFacts.

Variable cfg : Config.
Variable env : Env.

Lemma route_search sid p r :
  lower p = "search:" ->
  route cfg env sid (p +:+ r) = search_branch env sid (p +:+ r) (strip r).
Proof.
  intros Hp. unfold route.
  by rewrite (lower_prefix_startswith p r _ Hp), (lower_prefix_drop p r _ Hp).
Qed.

Lemma route_news sid p r :
  lower p = "news:" ->
  route cfg env sid (p +:+ r) = news_branch cfg env sid (p +:+ r) (strip r).
Proof.
  intros Hp. unfold route.
  rewrite (lower_prefix_startswith p r _ Hp), (lower_prefix_drop p r _ Hp).
  by rewrite lower_app, Hp.
Qed.

Lemma route_conversation sid user_text :
  (forall p r, user_text = p +:+ r ->
               lower p <> "search:" /\ lower p <> "news:") ->
  route cfg env sid user_text = conversation_flow env sid user_text.
Proof.
  intros Hno. unfold route.
  destruct (startswith (lower user_text) "search:") eqn:Hs.
  { apply startswith_lower_split in Hs as [Hsplit Hlow].
    by destruct (Hno _ _ Hsplit) as [? _]. }
  destruct (startswith (lower user_text) "news:") eqn:Hn.
  { apply startswith_lower_split in Hn as [Hsplit Hlow].
    by destruct (Hno _ _ Hsplit) as [_ ?]. }
  done.
Qed.

Lemma search_branch_run sid user_text q s :
  search_branch env sid user_text q s
  = match simple_web_search env q with
    | inl e => (inl e, mkState (chat_history_store s) (uploads s)
                               (trace s ++ [EvSearch q]))
    | inr result =>
        (inr (mkChatResponse user_text result (JStr "")),
         mkState (add_message_to_history
                    (add_message_to_history (chat_history_store s) sid "user" user_text)
                    sid "model" result)
                 (uploads s) (trace s ++ [EvSearch q]))
    end.
Proof.
  unfold search_branch, mbind, M_bind, log_event, lift, append_history. simpl.
  by destruct (simple_web_search env q).
Qed.

End Routing.

(* ===================================================================== *)
(** ** Rejected transcripts *)
(* ===================================================================== *)

Section Rejection.

Import PyStr.

Lemma lstrip_spaces (s : string) :
  (forall c, c ∈ chars s -> isspace c = true) -> lstrip s = EmptyString.
Proof.
  induction s as [|c s IH]; intros Hall; [done|].
  simpl. rewrite (Hall c) by apply list_elem_of_here.
  apply IH. intros c' Hc'. apply Hall. by apply list_elem_of_further.
Qed.

Lemma strip_spaces (s : string) :
  (forall c, c ∈ chars s -> isspace c = true) -> strip s = EmptyString.
Proof. intros Hall. unfold strip. by rewrite lstrip_spaces. Qed.

Lemma truthy_opt_true (o : option string) :
  truthy_opt o = true <-> exists s, o = Some s /\ s <> EmptyString.
Proof.
  split.
  - destruct o as [[|c s]|]; try discriminate. intros _. by eexists.
  - intros (s & -> & Hs). by destruct s.
Qed.

Lemma transcript_rejected_cases (t : Transcript) :
  (exists e, transcript_error t = Some e /\ e <> EmptyString)
  \/ transcript_text t = None
  \/ (exists txt, transcript_text t = Some txt
                  /\ forall c, c ∈ chars txt -> isspace c = true) ->
  transcript_rejected t = true.
Proof.
  unfold transcript_rejected. intros [Herr|[Hnone|(txt & Htxt & Hsp)]].
  - apply truthy_opt_true in Herr. by rewrite Herr.
  - rewrite Hnone. simpl. by rewrite orb_true_r.
  - rewrite Htxt. simpl. rewrite (strip_spaces _ Hsp). simpl.
    by rewrite orb_true_r.
Qed.

End Rejection.

(* ===================================================================== *)
(** ** The conversation flow *)
(* ===================================================================== *)

Section Conversation.

Variable cfg : Config.
Variable env : Env.

Lemma generate_murf_audio_fails chunk :
  chunk_fails env chunk -> exists e, generate_murf_audio env chunk = inl e.
Proof.
  unfold generate_murf_audio, mbind, Res_bind.
  intros [[e He]|(resp & Hresp & [[e He]|(fields & Hjson & Ha & Hb)])].
  - rewrite He. by eexists.
  - rewrite Hresp, He. by eexists.
  - rewrite Hresp, Hjson. simpl. rewrite Ha, Hb. simpl. by eexists.
Qed.

(** A well-formed answer yields the trimmed text of its first part. *)
Lemma extract_reply_answer (reply : string) :
  extract_reply (Sample.gemini_answer reply) = Some (PyStr.strip reply).
Proof. reflexivity. Qed.

Lemma reply_missing sid user_text llm_data s :
  truthy_opt (extract_reply llm_data) = false ->
  reply_and_synthesize env sid user_text llm_data s
  = (inl (HTTPException 500 "LLM reply missing or empty"), s).
Proof. intros Hno. unfold reply_and_synthesize. by rewrite Hno. Qed.

Lemma reply_synthesis_fails sid user_text llm_data reply chunk s :
  extract_reply llm_data = Some reply ->
  reply <> EmptyString ->
  chunk ∈ chunks reply ->
  chunk_fails env chunk ->
  exists detail,
    (reply_and_synthesize env sid user_text llm_data s).1
    = inl (HTTPException 500 detail).
Proof.
  intros Hreply Hne Hin Hfail. unfold reply_and_synthesize.
  rewrite Hreply. destruct reply as [|c reply]; [done|]. simpl.
  destruct (generate_murf_audio_fails chunk Hfail) as [e He].
  unfold mbind, M_bind, append_history.
  match goal with
  | |- context [synthesize env ?l ?st] =>
      destruct (synthesize_fails env l chunk e st Hin He) as [detail Hd];
      rewrite Hd
  end.
  by exists detail.
Qed.


End Conversation.


Section ConversationRequest.

Variables (cfg : Config) (env : Env) (sid : string) (s : State).
Variables (t : Transcript) (resp : HttpResponse) (llm_data : json).

Let user_text := PyStr.strip (default EmptyString (transcript_text t)).
Let store := add_message_to_history (chat_history_store s) sid "user" user_text.

Hypothesis upload_copied : copyfileobj env = None.
Hypothesis transcribed : transcribe env (temp_path env) = inr t.
Hypothesis accepted : transcript_rejected t = false.
Hypothesis not_search : PyStr.startswith (PyStr.lower user_text) "search:" = false.
Hypothesis not_news : PyStr.startswith (PyStr.lower user_text) "news:" = false.
Hypothesis answered : gemini_post env (gemini_contents store sid) = inr resp.
Hypothesis status_ok : status_code resp = 200%Z.
Hypothesis parsed : json_body resp = inr llm_data.

(** A conversation request whose model call is answered continues with the
    extraction of the reply. *)
Lemma chat_answered :
  chat_with_history cfg env sid s
  = reply_and_synthesize env sid user_text llm_data
      (after_model_call env sid user_text s).
Proof.
  rewrite (chat_transcribed cfg env sid t s upload_copied transcribed).
  rewrite accepted. fold user_text. unfold route.
  rewrite not_search, not_news.
  rewrite (conversation_flow_answered env sid user_text _ resp llm_data);
    try done.
  unfold after_model_call, after_transcription. simpl. fold store.
  by rewrite <- app_assoc.
Qed.

End ConversationRequest.

(* ===================================================================== *)
(** ** What each branch calls *)
(* ===================================================================== *)

Section BranchCalls.

Variable cfg : Config.
Variable env : Env.

Lemma news_branch_run sid ut topic s :
  news_branch cfg env sid ut topic s
  = match get_latest_news cfg env topic s with
    | (inl e, s') => (inl e, s')
    | (inr report, s') =>
        (inr (mkChatResponse ut report (JStr "")),
         mkState (add_message_to_history
                    (add_message_to_history (chat_history_store s') sid "user" ut)
                    sid "model" report)
                 (uploads s') (trace s'))
    end.
Proof.
  unfold news_branch, mbind, M_bind, append_history.
  by destruct (get_latest_news cfg env topic s) as [[e|report] s'].
Qed.

Lemma get_latest_news_request_trace topic s :
  truthy_opt (NEWSAPI_KEY cfg) = true ->
  trace (get_latest_news cfg env topic s).2 = trace s ++ [EvNews topic].
Proof.
  intros Hkey. unfold get_latest_news. rewrite Hkey. simpl.
  unfold mbind, M_bind, log_event, lift, mret, M_ret. simpl.
  destruct (newsapi_get env topic) as [e|resp]; [done|].
  destruct (negb (status_code resp =? 200)%Z); [done|].
  destruct (json_body resp) as [e|data]; [done|].
  destruct (Json.get data "articles" (JArr [])) as [e|articles]; [done|].
  destruct (negb (Json.truthy articles)); [done|].
  by destruct (headlines_of env articles).
Qed.

Lemma call_gemini_state contents s :
  (call_gemini env contents s).2
  = mkState (chat_history_store s) (uploads s) (trace s ++ [EvGemini contents]).
Proof.
  unfold call_gemini, try_except, mbind, M_bind, log_event, lift, raise. simpl.
  destruct (gemini_post env contents) as [e|response]; [done|]. simpl.
  destruct (negb (status_code response =? 200)%Z); [done|].
  by destruct (json_body response).
Qed.

Lemma synthesize_state l s :
  (synthesize env l s).2
  = mkState (chat_history_store s) (uploads s) (trace s ++ map EvMurf l).
Proof.
  unfold synthesize, try_except, mbind, M_bind, lift, raise.
  rewrite dispatch_murf_run.
  by destruct (gather (map (generate_murf_audio env) l)).
Qed.

(** After the prompt has been sent, only synthesis requests follow. *)
Lemma reply_and_synthesize_trace sid ut llm_data s :
  exists rest,
    trace (reply_and_synthesize env sid ut llm_data s).2 = trace s ++ rest
    /\ Forall (fun ev => exists chunk, ev = EvMurf chunk) rest.
Proof.
  unfold reply_and_synthesize.
  destruct (negb (truthy_opt (extract_reply llm_data))).
  { exists []. simpl. by rewrite app_nil_r. }
  unfold mbind, M_bind, append_history. cbv beta iota.
  set (reply := default EmptyString (extract_reply llm_data)).
  set (s' := mkState _ _ _).
  pose proof (synthesize_state (chunks reply) s') as Hstate.
  exists (map EvMurf (chunks reply)). split.
  - destruct (synthesize env (chunks reply) s') as [[e|urls] s'']; simpl in *.
    + by rewrite Hstate.
    + destruct urls; simpl; by rewrite Hstate.
  - apply Forall_fmap, Forall_forall. intros chunk _. by exists chunk.
Qed.

(** The conversation flow sends the prompt built from the log that holds
    the user message, then at most synthesis requests. *)
Lemma conversation_flow_trace sid ut s :
  exists rest,
    trace (conversation_flow env sid ut s).2
    = trace s
      ++ EvGemini (gemini_contents
                     (add_message_to_history (chat_history_store s) sid "user" ut)
                     sid) :: rest
    /\ Forall (fun ev => exists chunk, ev = EvMurf chunk) rest.
Proof.
  unfold conversation_flow, mbind, M_bind, append_history. cbv beta iota.
  set (store := add_message_to_history (chat_history_store s) sid "user" ut).
  set (s2 := mkState store (uploads s) (trace s)).
  change (chat_history_store s2) with store.
  pose proof (call_gemini_state (gemini_contents store sid) s2) as Hstate.
  destruct (call_gemini env (gemini_contents store sid) s2) as [[e|llm_data] s3];
    simpl in Hstate; subst s3.
  - exists []. by split.
  - destruct (reply_and_synthesize_trace sid ut llm_data
                (mkState store (uploads s) (trace s ++ [EvGemini (gemini_contents store sid)])))
      as (rest & Hrest & Hmurf).
    exists rest. split; [|done]. rewrite Hrest. simpl. by rewrite <- app_assoc.
Qed.

End BranchCalls.

(* ===================================================================== *)
(** ** Properties of the specification *)
(* ===================================================================== *)

(** C1, as the code has it: a reply of length [L] is split into
    [ceil(L / 3000)] chunks, which is [max(1, ceil(L / 3000))] for every
    non-empty reply; each chunk has at most 3000 characters, the [k]-th chunk
    is the window [3000 k .. 3000 k + 3000) of the reply, and the chunks
    concatenated in order give the reply back.  An empty reply is never
    split: the request has ended with the empty-reply error before. *)
Theorem chunks_split (llm_reply : string) :
  length (chunks llm_reply) = ceil_div (String.length llm_reply) maxlen
  /\ (llm_reply <> EmptyString ->
      length (chunks llm_reply)
      = Nat.max 1 (ceil_div (String.length llm_reply) maxlen))
  /\ Forall (fun c => String.length c <= maxlen) (chunks llm_reply)
  /\ (forall k, k < length (chunks llm_reply) ->
        chunks llm_reply !! k
        = Some (PyStr.slice llm_reply (k * maxlen) (k * maxlen + maxlen)))
  /\ PyStr.concat (chunks llm_reply) = llm_reply
  /\ (forall env sid user_text llm_data s,
        extract_reply llm_data = Some EmptyString ->
        reply_and_synthesize env sid user_text llm_data s
        = (inl (HTTPException 500 "LLM reply missing or empty"), s)).
Proof.
  unfold chunks. repeat split.
  - apply length_chunks_of.
  - intros Hne. rewrite length_chunks_of.
    assert (0 < String.length llm_reply) as Hlen
      by (destruct llm_reply; [done|simpl; lia]).
    pose proof (ceil_div_pos maxlen maxlen_pos _ Hlen). lia.
  - apply chunks_of_bounded, maxlen_pos.
  - apply chunks_of_lookup.
  - apply concat_chunks_of, maxlen_pos.
  - intros env sid user_text llm_data s Hempty.
    apply reply_missing. by rewrite Hempty.
Qed.

(** C1 as stated fails on the empty reply: the split yields no chunk where
    the specification asks for one. *)
Lemma chunks_empty_reply :
  length (chunks EmptyString)
  <> Nat.max 1 (ceil_div (String.length EmptyString) maxlen).
Proof. by vm_compute. Qed.

(** C2, evaluated where the transcription raises: the handler removes the
    upload, the [finally] block asks for the removal again, and the second
    [os.unlink] raises [FileNotFoundError], which is what the request ends
    with. *)
Theorem transcription_failure_unlinks_twice :
  let out := chat_with_history Sample.cfg Sample.transcription_down "s1" Sample.fresh in
  out.1 = inl (PyError "FileNotFoundError" "uploads/tmp0.wav")
  /\ trace out.2
     = [EvCreate "uploads/tmp0.wav"; EvTranscribe "uploads/tmp0.wav";
        EvUnlink "uploads/tmp0.wav"; EvUnlinkMissing "uploads/tmp0.wav"]
  /\ "uploads/tmp0.wav" ∉ uploads out.2.
Proof.
  simpl.
  rewrite (chat_transcription_raises Sample.cfg Sample.transcription_down "s1"
             (PyError "TimeoutError" "timed out") Sample.fresh) by reflexivity.
  simpl. repeat split.
  apply not_elem_of_difference. right. by apply elem_of_singleton.
Qed.

(** C3: an accepted transcript is routed on its trimmed text, the prefixes
    being tried in order and in any case.  When the text is a prefix spelling
    [search:] followed by a rest, the search skill is called with the trimmed
    rest, no other provider is called, and its outcome is the request's.
    When the prefix spells [news:], the news skill is run on the trimmed
    rest: its outcome is the request's, the calls made are its calls, and
    with a configured key its request is the one for that topic.  When no
    prefix of the text spells either, the conversation flow runs: the model
    provider is sent the prompt and only synthesis requests follow.
    [Search: weather today] reaches the search skill with the query
    [weather today]. *)
Theorem routing_by_prefix (cfg : Config) (env : Env) (sid : string)
    (s : State) (t : Transcript) :
  copyfileobj env = None ->
  transcribe env (temp_path env) = inr t ->
  transcript_rejected t = false ->
  let user_text := PyStr.strip (default EmptyString (transcript_text t)) in
  let s1 := after_transcription env s in
  (forall p r, user_text = p +:+ r -> PyStr.lower p = "search:" ->
     chat_with_history cfg env sid s
     = search_branch env sid user_text (PyStr.strip r) s1
     /\ trace (chat_with_history cfg env sid s).2
        = trace s1 ++ [EvSearch (PyStr.strip r)]
     /\ (chat_with_history cfg env sid s).1
        = match simple_web_search env (PyStr.strip r) with
          | inr result => inr (mkChatResponse user_text result (JStr ""))
          | inl e => inl e
          end)
  /\ (forall p r, user_text = p +:+ r -> PyStr.lower p = "news:" ->
     chat_with_history cfg env sid s
     = news_branch cfg env sid user_text (PyStr.strip r) s1
     /\ trace (chat_with_history cfg env sid s).2
        = trace (get_latest_news cfg env (PyStr.strip r) s1).2
     /\ (truthy_opt (NEWSAPI_KEY cfg) = true ->
         trace (chat_with_history cfg env sid s).2
         = trace s1 ++ [EvNews (PyStr.strip r)])
     /\ (chat_with_history cfg env sid s).1
        = match (get_latest_news cfg env (PyStr.strip r) s1).1 with
          | inr report => inr (mkChatResponse user_text report (JStr ""))
          | inl e => inl e
          end)
  /\ ((forall p r, user_text = p +:+ r ->
         PyStr.lower p <> "search:" /\ PyStr.lower p <> "news:") ->
     chat_with_history cfg env sid s = conversation_flow env sid user_text s1
     /\ exists rest,
          trace (chat_with_history cfg env sid s).2
          = trace s1
            ++ EvGemini (gemini_contents
                           (add_message_to_history (chat_history_store s) sid
                                                   "user" user_text) sid)
               :: rest
          /\ Forall (fun ev => exists chunk, ev = EvMurf chunk) rest)
  /\ (user_text = "Search: weather today" ->
     chat_with_history cfg env sid s
     = search_branch env sid user_text "weather today" s1
     /\ trace (chat_with_history cfg env sid s).2
        = trace s1 ++ [EvSearch "weather today"]).
Proof.
  intros Hcopy Htr Hacc user_text s1.
  rewrite (chat_transcribed cfg env sid t s Hcopy Htr), Hacc.
  fold user_text s1. split; [|split; [|split]].
  - intros p r -> Hp. rewrite route_search by done. split; [done|].
    rewrite search_branch_run.
    by destruct (simple_web_search env (PyStr.strip r)).
  - intros p r -> Hp. rewrite route_news by done. split; [done|].
    rewrite news_branch_run.
    pose proof (get_latest_news_request_trace cfg env (PyStr.strip r) s1) as Hreq.
    destruct (get_latest_news cfg env (PyStr.strip r) s1) as [[e|report] s2];
      simpl in *; by repeat split.
  - intros Hno. rewrite route_conversation by done. split; [done|].
    exact (conversation_flow_trace env sid user_text s1).
  - intros Hut. rewrite Hut.
    assert (route cfg env sid "Search: weather today"
            = search_branch env sid "Search: weather today" "weather today")
      as Hroute
      by exact (route_search cfg env sid "Search:" " weather today" eq_refl).
    rewrite Hroute. split; [done|].
    rewrite search_branch_run. by destruct (simple_web_search env _).
Qed.

Lemma routing_by_prefix_witness :
  chat_with_history Sample.cfg Sample.asks_search "s1" Sample.fresh
  = search_branch Sample.asks_search "s1" "Search: weather today" "weather today"
      (after_transcription Sample.asks_search Sample.fresh)
  /\ trace (chat_with_history Sample.cfg Sample.asks_search "s1" Sample.fresh).2
     = trace (after_transcription Sample.asks_search Sample.fresh)
       ++ [EvSearch "weather today"].
Proof.
  apply (routing_by_prefix Sample.cfg Sample.asks_search "s1" Sample.fresh
           (mkTranscript (Some " Search: weather today ") None));
    reflexivity.
Defined.

(** C4: the prompt of the conversation flow is built from the session's log
    once the user message is in it, and it is what the model provider is
    sent.  For every store and session the prompt has at most 6 entries: the
    persona entry first, then the last [min(5, n)] of the [n] messages of
    the log, in order, each as [{role, parts: [{text}]}] with the role and
    the text of the message. *)
Theorem prompt_window (env : Env) (sid user_text : string) (s : State) :
  let appended := add_message_to_history (chat_history_store s) sid "user" user_text in
  conversation_flow env sid user_text s
  = (call_gemini env (gemini_contents appended sid)
       ≫= reply_and_synthesize env sid user_text)
      (mkState appended (uploads s) (trace s))
  /\ (exists rest,
        trace (conversation_flow env sid user_text s).2
        = trace s ++ EvGemini (gemini_contents appended sid) :: rest)
  /\ forall (store : gmap string (list Message)) (session_id : string),
       let history := get_chat_history store session_id in
       let prompt := gemini_contents store session_id in
       length prompt <= 6
       /\ exists older recent,
            history = older ++ recent
            /\ length recent = Nat.min 5 (length history)
            /\ prompt = mkContent "model" [mkPart PERSONA_PROMPT]
                        :: map to_content recent
            /\ prompt = mkContent "model" [mkPart PERSONA_PROMPT]
                        :: map (fun msg => mkContent (role msg) [mkPart (text msg)])
                               recent.
Proof.
  split; [reflexivity|]. split.
  { destruct (conversation_flow_trace env sid user_text s) as (rest & Hrest & _).
    by exists rest. }
  intros store session_id history prompt. subst prompt.
  unfold gemini_contents. rewrite build_gemini_contents_window. fold history.
  split.
  - simpl. rewrite length_map, length_drop. lia.
  - exists (take (length history - 5) history), (drop (length history - 5) history).
    split; [by rewrite take_drop|]. split; [|done].
    rewrite length_drop. lia.
Qed.

(** C5: in a conversation request that reaches the synthesis, a chunk whose
    request fails or whose answer has neither audio field makes the request
    end with an [HTTPException] of status 500; no dict, hence no
    [audio_url], is returned. *)
Theorem synthesis_fails_as_a_whole (cfg : Config) (env : Env) (sid : string)
    (s : State) (t : Transcript) (resp : HttpResponse) (llm_data : json)
    (reply chunk : string) :
  copyfileobj env = None ->
  transcribe env (temp_path env) = inr t ->
  transcript_rejected t = false ->
  let user_text := PyStr.strip (default EmptyString (transcript_text t)) in
  let store := add_message_to_history (chat_history_store s) sid "user" user_text in
  PyStr.startswith (PyStr.lower user_text) "search:" = false ->
  PyStr.startswith (PyStr.lower user_text) "news:" = false ->
  gemini_post env (gemini_contents store sid) = inr resp ->
  status_code resp = 200%Z ->
  json_body resp = inr llm_data ->
  extract_reply llm_data = Some reply ->
  reply <> EmptyString ->
  chunk ∈ chunks reply ->
  chunk_fails env chunk ->
  exists detail,
    (chat_with_history cfg env sid s).1 = inl (HTTPException 500 detail)
    /\ http_status (chat_with_history cfg env sid s).1 = 500%Z.
Proof.
  intros Hcopy Htr Hacc user_text store Hs Hn Hpost Hok Hjson Hreply Hne Hin Hfail.
  rewrite (chat_answered cfg env sid s t resp llm_data) by done.
  destruct (reply_synthesis_fails env sid user_text llm_data reply chunk
              (after_model_call env sid user_text s) Hreply Hne Hin Hfail)
    as [detail Hd].
  exists detail. fold user_text. by rewrite Hd.
Qed.

Lemma synthesis_fails_as_a_whole_witness :
  exists detail,
    (chat_with_history Sample.cfg Sample.no_audio "s1" Sample.fresh).1
    = inl (HTTPException 500 detail)
    /\ http_status (chat_with_history Sample.cfg Sample.no_audio "s1" Sample.fresh).1
       = 500%Z.
Proof.
  apply (synthesis_fails_as_a_whole Sample.cfg Sample.no_audio "s1" Sample.fresh
           (mkTranscript (Some "hello") None)
           (Sample.json_response (Sample.gemini_answer "Hi there."))
           (Sample.gemini_answer "Hi there.") "Hi there." "Hi there.");
    try reflexivity.
  - discriminate.
  - vm_compute. constructor.
  - right. exists (Sample.json_response (JObj [])). split; [reflexivity|].
    right. exists []. repeat split; reflexivity.
Defined.



(** C7: in the conversation flow, when the first part of the first
    candidate of the model answer yields no reply text, or an empty one, the
    request ends with the 500 [LLM reply missing or empty] and nothing is
    appended to the history in this failure case: the step that finds the
    reply missing leaves every state as it is, so the request ends in the
    state in which the model was answered, whose log holds the user message
    appended at the start of the flow and no message with role [model]; no
    synthesis request is made and the other sessions are untouched. *)
Theorem empty_reply_rejected (cfg : Config) (env : Env) (sid : string)
    (s : State) (t : Transcript) (resp : HttpResponse) (llm_data : json) :
  copyfileobj env = None ->
  transcribe env (temp_path env) = inr t ->
  transcript_rejected t = false ->
  let user_text := PyStr.strip (default EmptyString (transcript_text t)) in
  let store := add_message_to_history (chat_history_store s) sid "user" user_text in
  PyStr.startswith (PyStr.lower user_text) "search:" = false ->
  PyStr.startswith (PyStr.lower user_text) "news:" = false ->
  gemini_post env (gemini_contents store sid) = inr resp ->
  status_code resp = 200%Z ->
  json_body resp = inr llm_data ->
  extract_reply llm_data = None \/ extract_reply llm_data = Some EmptyString ->
  let out := chat_with_history cfg env sid s in
  out.1 = inl (HTTPException 500 "LLM reply missing or empty")
  /\ (forall s', reply_and_synthesize env sid user_text llm_data s'
                 = (inl (HTTPException 500 "LLM reply missing or empty"), s'))
  /\ out.2 = after_model_call env sid user_text s
  /\ chat_history_store out.2 = store
  /\ trace out.2
     = trace s ++ [EvCreate (temp_path env); EvTranscribe (temp_path env);
                   EvUnlink (temp_path env);
                   EvGemini (gemini_contents store sid)]
  /\ get_chat_history (chat_history_store out.2) sid
     = get_chat_history (chat_history_store s) sid ++ [mkMessage "user" user_text]
  /\ forall other, other <> sid ->
       get_chat_history (chat_history_store out.2) other
       = get_chat_history (chat_history_store s) other.
Proof.
  intros Hcopy Htr Hacc user_text store Hs Hn Hpost Hok Hjson Hreply out.
  assert (truthy_opt (extract_reply llm_data) = false) as Hmissing
    by (by destruct Hreply as [-> | ->]).
  subst out. rewrite (chat_answered cfg env sid s t resp llm_data) by done.
  fold user_text. rewrite reply_missing by done.
  simpl. split; [done|]. split.
  { intros s'. by apply reply_missing. }
  split; [done|]. split; [done|]. split; [done|]. split.
  - apply get_after_add_same.
  - intros other Hne. by apply get_after_add_other.
Qed.

Lemma empty_reply_rejected_witness :
  let out := chat_with_history Sample.cfg Sample.no_candidates "s1" Sample.fresh in
  let store := add_message_to_history (chat_history_store Sample.fresh) "s1" "user" "hello" in
  out.1 = inl (HTTPException 500 "LLM reply missing or empty")
  /\ (forall s', reply_and_synthesize Sample.no_candidates "s1" "hello" (JObj []) s'
                 = (inl (HTTPException 500 "LLM reply missing or empty"), s'))
  /\ out.2 = after_model_call Sample.no_candidates "s1" "hello" Sample.fresh
  /\ chat_history_store out.2 = store
  /\ trace out.2
     = trace Sample.fresh
       ++ [EvCreate "uploads/tmp0.wav"; EvTranscribe "uploads/tmp0.wav";
           EvUnlink "uploads/tmp0.wav"; EvGemini (gemini_contents store "s1")]
  /\ get_chat_history (chat_history_store out.2) "s1"
     = get_chat_history (chat_history_store Sample.fresh) "s1"
       ++ [mkMessage "user" "hello"]
  /\ forall other, other <> "s1" ->
       get_chat_history (chat_history_store out.2) other
       = get_chat_history (chat_history_store Sample.fresh) other.
Proof.
  apply (empty_reply_rejected Sample.cfg Sample.no_candidates "s1" Sample.fresh
           (mkTranscript (Some "hello") None)
           (Sample.json_response (JObj [])) (JObj []));
    try reflexivity.
  left. reflexivity.
Defined.

(** C8: after any run of appends, a session's log is its earlier log
    followed by the messages appended to that session, in call order; on a
    session not yet in the store, the log after appending [msgs] to it is
    [msgs]; and a request leaves every session's earlier log as a prefix of
    its new one. *)
Theorem history_append_only :
  (forall (store : gmap string (list Message)) calls sid,
     get_chat_history (add_messages store calls) sid
     = get_chat_history store sid ++ messages_for sid calls)
  /\ (forall (store : gmap string (list Message)) sid msgs,
        store !! sid = None ->
        get_chat_history (add_messages store (map (pair sid) msgs)) sid = msgs
        /\ length (get_chat_history (add_messages store (map (pair sid) msgs)) sid)
           = length msgs)
  /\ (forall cfg env sid s, store_grows s (chat_with_history cfg env sid s).2).
Proof.
  split; [|split].
  - apply get_after_add_messages.
  - intros store sid msgs Hfresh.
    rewrite get_after_add_messages, messages_for_own.
    unfold get_chat_history. by rewrite Hfresh.
  - intros cfg env sid s. apply grows_chat_with_history.
Qed.

(** C9: a transcript that carries an error, has no text, or whose text is
    empty or made of whitespace only ends the request with an
    [HTTPException] of status 400, and the history store is the one the
    request started with. *)
Theorem rejected_transcript_is_400 (cfg : Config) (env : Env) (sid : string)
    (s : State) (t : Transcript) :
  copyfileobj env = None ->
  transcribe env (temp_path env) = inr t ->
  (exists e, transcript_error t = Some e /\ e <> EmptyString)
  \/ transcript_text t = None
  \/ (exists txt, transcript_text t = Some txt
                  /\ forall c, c ∈ chars txt -> PyStr.isspace c = true) ->
  let out := chat_with_history cfg env sid s in
  (exists detail, out.1 = inl (HTTPException 400 detail))
  /\ http_status out.1 = 400%Z
  /\ chat_history_store out.2 = chat_history_store s.
Proof.
  intros Hcopy Htr Hbad out. subst out.
  rewrite (chat_transcribed cfg env sid t s Hcopy Htr).
  rewrite (transcript_rejected_cases t Hbad). simpl. eauto.
Qed.

Lemma rejected_transcript_is_400_witness :
  let out := chat_with_history Sample.cfg Sample.silence "s1" Sample.fresh in
  (exists detail, out.1 = inl (HTTPException 400 detail))
  /\ http_status out.1 = 400%Z
  /\ chat_history_store out.2 = chat_history_store Sample.fresh.
Proof.
  apply (rejected_transcript_is_400 Sample.cfg Sample.silence "s1" Sample.fresh
           (mkTranscript (Some "   ") None)); try reflexivity.
  right. right. exists "   ". split; [reflexivity|].
  intros c Hc. simpl in Hc.
  repeat (apply elem_of_cons in Hc as [->|Hc]; [reflexivity|]).
  by apply elem_of_nil in Hc.
Defined.

(* ===================================================================== *)
(** ** Startup and the news key *)
(* ===================================================================== *)

Lemma startup_keys getenv cfg :
  startup getenv = inr cfg ->
  NEWSAPI_KEY cfg = getenv "NEWSAPI_KEY"
  /\ truthy_opt (getenv "NEWSAPI_KEY") = true.
Proof.
  unfold startup, mbind, Res_bind, mret, Res_ret. simpl.
  destruct (truthy_opt (getenv "ASSEMBLYAI_API_KEY")); [|discriminate].
  destruct (truthy_opt (getenv "MURF_API_KEY")); [|discriminate].
  destruct (truthy_opt (getenv "GEMINI_API_KEY")); [|discriminate].
  destruct (truthy_opt (getenv "NEWSAPI_KEY")); [|discriminate].
  simpl. by intros [= <-].
Qed.

Lemma startup_without_news_key getenv :
  truthy_opt (getenv "NEWSAPI_KEY") = false ->
  exists msg, startup getenv = inl (PyError "RuntimeError" msg).
Proof.
  intros Hkey. unfold startup, mbind, Res_bind, mret, Res_ret. simpl.
  destruct (truthy_opt (getenv "ASSEMBLYAI_API_KEY")); [|by eexists].
  destruct (truthy_opt (getenv "MURF_API_KEY")); [|by eexists].
  destruct (truthy_opt (getenv "GEMINI_API_KEY")); [|by eexists].
  rewrite Hkey. by eexists.
Qed.

Lemma get_latest_news_unconfigured cfg env topic s :
  truthy_opt (NEWSAPI_KEY cfg) = false ->
  get_latest_news cfg env topic s
  = (inr "NewsAPI key not configured; news feature unavailable.", s).
Proof. intros Hkey. unfold get_latest_news. by rewrite Hkey. Qed.

Lemma get_latest_news_configured cfg env topic s :
  truthy_opt (NEWSAPI_KEY cfg) = true ->
  exists r,
    get_latest_news cfg env topic s
    = (r, mkState (chat_history_store s) (uploads s) (trace s ++ [EvNews topic]))
    /\ r <> inr "NewsAPI key not configured; news feature unavailable.".
Proof.
  intros Hkey. unfold get_latest_news. rewrite Hkey. simpl.
  unfold mbind, M_bind, log_event, lift, mret, M_ret. simpl.
  destruct (newsapi_get env topic) as [e|resp]; [by eexists|].
  destruct (negb (status_code resp =? 200)%Z); [by eexists|].
  destruct (json_body resp) as [e|data]; [by eexists|].
  destruct (Json.get data "articles" (JArr [])) as [e|articles]; [by eexists|].
  destruct (negb (Json.truthy articles)); [by eexists|].
  destruct (headlines_of env articles) as [e|headlines]; by eexists.
Qed.

(** C10: a process that has started holds a non-empty news key, so every run
    of [get_latest_news] issues the provider request and its result is not
    the answer of the not-configured branch. *)
Theorem news_key_always_configured (getenv : string -> option string)
    (cfg : Config) :
  startup getenv = inr cfg ->
  (exists key, NEWSAPI_KEY cfg = Some key /\ key <> EmptyString)
  /\ forall env topic s,
       exists r,
         get_latest_news cfg env topic s
         = (r, mkState (chat_history_store s) (uploads s)
                       (trace s ++ [EvNews topic]))
         /\ r <> inr "NewsAPI key not configured; news feature unavailable.".
Proof.
  intros [Hcfg Hkey]%startup_keys. rewrite <- Hcfg in Hkey. split.
  - by apply truthy_opt_true.
  - intros env topic s. by apply get_latest_news_configured.
Qed.

Lemma news_key_always_configured_witness :
  (exists key, NEWSAPI_KEY (mkConfig (Some "key") (Some "key") (Some "key") (Some "key"))
               = Some key /\ key <> EmptyString)
  /\ forall env topic s,
       exists r,
         get_latest_news (mkConfig (Some "key") (Some "key") (Some "key") (Some "key"))
                         env topic s
         = (r, mkState (chat_history_store s) (uploads s)
                       (trace s ++ [EvNews topic]))
         /\ r <> inr "NewsAPI key not configured; news feature unavailable.".
Proof.
  apply (news_key_always_configured Sample.getenv). reflexivity.
Defined.

(* ===================================================================== *)
(** ** Further properties: store, window, chunks, extraction *)
(* ===================================================================== *)

(** X1: an append creates the session when it is new and creates no other:
    the sessions of the store afterwards are the earlier ones and the one
    appended to; a new session then holds the appended message alone. *)
Theorem add_message_sessions (store : gmap string (list Message))
    (session_id r t : string) :
  dom (add_message_to_history store session_id r t) = dom store ∪ {[session_id]}
  /\ (store !! session_id = None ->
      add_message_to_history store session_id r t !! session_id
      = Some [mkMessage r t]).
Proof.
  unfold add_message_to_history.
  destruct (store !! session_id) as [log|] eqn:Hlog; split.
  - rewrite dom_alter_L. apply elem_of_dom_2 in Hlog.
    apply set_eq. intros x. rewrite elem_of_union, elem_of_singleton.
    split; [tauto|]. by intros [?| ->].
  - discriminate.
  - rewrite dom_alter_L, dom_insert_L.
    apply set_eq. intros x. rewrite !elem_of_union. tauto.
  - intros _. by rewrite lookup_alter_eq, lookup_insert_eq.
Qed.

(** X2: the window for any [limit].  A positive limit keeps the last
    [limit] messages (all of them when the log is shorter); the limit 0
    keeps the whole log, not none of it; a negative limit drops the first
    [-limit] messages. *)
Theorem window_for_any_limit (store : gmap string (list Message))
    (session_id : string) (limit : Z) :
  let history := get_chat_history store session_id in
  let window := build_gemini_contents_limit store session_id limit in
  ((0 < limit)%Z ->
     window = map to_content (drop (length history - Z.to_nat limit) history)
     /\ length window = Nat.min (Z.to_nat limit) (length history))
  /\ (limit = 0%Z -> window = map to_content history)
  /\ ((limit < 0)%Z ->
        window = map to_content (drop (Z.to_nat (- limit)) history)).
Proof.
  intros history window. subst window.
  unfold build_gemini_contents_limit, slice_from. fold history.
  split; [|split].
  - intros Hpos. destruct (Z.ltb_spec (- limit) 0); [|lia].
    replace (Z.to_nat (Z.of_nat (length history) + - limit))
      with (length history - Z.to_nat limit) by lia.
    split; [done|]. rewrite length_map, length_drop. lia.
  - intros ->. simpl. by rewrite drop_0.
  - intros Hneg. destruct (Z.ltb_spec (- limit) 0); [lia|done].
Qed.

(** X3: the prompt ends with the message the user has just sent, however
    long the log is. *)
Theorem prompt_ends_with_user_message (store : gmap string (list Message))
    (session_id user_text : string) :
  last (gemini_contents
          (add_message_to_history store session_id "user" user_text) session_id)
  = Some (mkContent "user" [mkPart user_text]).
Proof.
  unfold gemini_contents. rewrite build_gemini_contents_window.
  rewrite get_after_add_same.
  set (h := get_chat_history store session_id).
  rewrite length_app. simpl.
  rewrite drop_app_le by lia.
  rewrite map_app. simpl.
  rewrite app_comm_cons. apply last_snoc.
Qed.

Lemma ceil_div_tight (size n : nat) :
  0 < size -> 0 < n -> (ceil_div n size - 1) * size < n.
Proof.
  intros Hsize Hn. unfold ceil_div.
  pose proof (Nat.div_mod_eq (n + (size - 1)) size) as Hdm.
  pose proof (Nat.mod_upper_bound (n + (size - 1)) size) as Hlt.
  nia.
Qed.

Lemma chunks_of_length_at (size : nat) (s : string) (k : nat) (c : string) :
  0 < size ->
  chunks_of size s !! k = Some c ->
  String.length c = Nat.min size (String.length s - k * size)
  /\ k * size < String.length s.
Proof.
  intros Hsize Hk.
  assert (k < length (chunks_of size s)) as Hlt by (by eapply lookup_lt_Some).
  rewrite chunks_of_lookup in Hk by done. injection Hk as <-.
  unfold PyStr.slice.
  rewrite PyStrFacts.length_take, PyStrFacts.length_drop.
  rewrite length_chunks_of in Hlt.
  assert (0 < String.length s) as Hpos.
  { destruct (Nat.eq_dec (String.length s) 0) as [Hzero|]; [|lia].
    rewrite Hzero in Hlt. unfold ceil_div in Hlt.
    rewrite Nat.div_small in Hlt by lia. lia. }
  pose proof (ceil_div_tight size (String.length s) Hsize Hpos).
  split; [f_equal; lia|nia].
Qed.

(** X4: no chunk is empty, and every chunk but the last has exactly 3000
    characters. *)
Theorem chunks_full_but_last (llm_reply : string) :
  Forall (fun c => 1 <= String.length c <= maxlen) (chunks llm_reply)
  /\ Forall (fun c => String.length c = maxlen)
            (take (length (chunks llm_reply) - 1) (chunks llm_reply)).
Proof.
  unfold chunks. split.
  - apply Forall_lookup. intros k c Hk.
    destruct (chunks_of_length_at maxlen llm_reply k c maxlen_pos Hk) as [Hlen Hlt].
    cbv beta. pose proof maxlen_pos. lia.
  - apply Forall_lookup. intros k c Hk.
    apply lookup_take_Some in Hk as [Hk Hlt].
    destruct (chunks_of_length_at maxlen llm_reply k c maxlen_pos Hk) as [Hlen _].
    rewrite length_chunks_of in Hlt.
    assert (0 < String.length llm_reply) as Hpos.
    { destruct (chunks_of_length_at maxlen llm_reply k c maxlen_pos Hk). lia. }
    pose proof (ceil_div_tight maxlen (String.length llm_reply) maxlen_pos Hpos).
    cbv beta. rewrite Hlen. pose proof maxlen_pos. nia.
Qed.

Lemma extract_reply_body_at_first_part
    (fields cfields content_fields pfields : list (string * json))
    (later_candidates later_parts : list json) :
  Json.assoc "candidates" fields = Some (JArr (JObj cfields :: later_candidates)) ->
  Json.assoc "content" cfields = Some (JObj content_fields) ->
  Json.assoc "parts" content_fields = Some (JArr (JObj pfields :: later_parts)) ->
  extract_reply_body (JObj fields)
  = match Json.assoc "text" pfields with
    | Some v => reply ← Json.strip v; mret (Some reply)
    | None => inr None
    end.
Proof.
  intros Hc Hcontent Hparts.
  unfold extract_reply_body, mbind, Res_bind, mret, Res_ret.
  simpl. rewrite Hc. simpl. rewrite Hcontent. simpl. rewrite Hparts. simpl.
  destruct (Json.assoc "text" pfields) as [v|] eqn:Ht.
  - by rewrite bool_decide_eq_true_2 by eauto.
  - rewrite bool_decide_eq_false_2; [done|]. by intros [? [=]].
Qed.

(** X5: the reply is read from the first part of the first candidate and
    from nowhere else.  When that part holds a string under [text], the
    reply is the string trimmed; when it holds no [text], or a value that is
    not a string, there is no reply, whatever later parts and candidates
    hold. *)
Theorem extract_reply_first_part
    (fields cfields content_fields pfields : list (string * json))
    (later_candidates later_parts : list json) :
  Json.assoc "candidates" fields = Some (JArr (JObj cfields :: later_candidates)) ->
  Json.assoc "content" cfields = Some (JObj content_fields) ->
  Json.assoc "parts" content_fields = Some (JArr (JObj pfields :: later_parts)) ->
  extract_reply (JObj fields)
  = match Json.assoc "text" pfields with
    | Some (JStr t) => Some (PyStr.strip t)
    | _ => None
    end.
Proof.
  intros Hc Hcontent Hparts. unfold extract_reply.
  rewrite (extract_reply_body_at_first_part fields cfields content_fields pfields
             later_candidates later_parts Hc Hcontent Hparts).
  destruct (Json.assoc "text" pfields) as [v|]; [|done].
  by destruct v.
Qed.

Lemma extract_reply_first_part_witness :
  extract_reply
    (JObj [("candidates",
            JArr [JObj [("content", JObj [("parts", JArr [JObj []; JObj [("text", JStr "late")]])])];
                  JObj [("content", JObj [("parts", JArr [JObj [("text", JStr "other")]])])]])])
  = None.
Proof.
  exact (extract_reply_first_part
           [("candidates",
             JArr [JObj [("content", JObj [("parts", JArr [JObj []; JObj [("text", JStr "late")]])])];
                   JObj [("content", JObj [("parts", JArr [JObj [("text", JStr "other")]])])]])]
           [("content", JObj [("parts", JArr [JObj []; JObj [("text", JStr "late")]])])]
           [("parts", JArr [JObj []; JObj [("text", JStr "late")]])]
           []
           [JObj [("content", JObj [("parts", JArr [JObj [("text", JStr "other")]])])]]
           [JObj [("text", JStr "late")]]
           eq_refl eq_refl eq_refl).
Defined.

(** X6: the synthesis of a chunk succeeds exactly when the answer is a JSON
    object whose [audioFile] is truthy, or else whose [audio_url] is; the
    location returned is that value.  The status code of the answer plays no
    part. *)
Theorem murf_audio_location (env : Env) (chunk : string) (url : json) :
  generate_murf_audio env chunk = inr url
  <-> exists resp fields,
        murf_post env chunk = inr resp
        /\ json_body resp = inr (JObj fields)
        /\ Json.truthy url = true
        /\ (default JNull (Json.assoc "audioFile" fields) = url
            \/ (Json.truthy (default JNull (Json.assoc "audioFile" fields)) = false
                /\ default JNull (Json.assoc "audio_url" fields) = url)).
Proof.
  unfold generate_murf_audio, mbind, Res_bind, mret, Res_ret. split.
  - destruct (murf_post env chunk) as [e|resp]; [discriminate|].
    destruct (json_body resp) as [e|data] eqn:Hjson; [discriminate|].
    destruct data as [| | | | |fields]; try discriminate. simpl.
    destruct (Json.truthy (default JNull (Json.assoc "audioFile" fields))) eqn:Ha.
    + rewrite Ha. simpl. intros [= <-]. exists resp, fields. eauto 6.
    + simpl.
      destruct (Json.truthy (default JNull (Json.assoc "audio_url" fields))) eqn:Hb;
        simpl; [|discriminate].
      intros [= <-]. exists resp, fields. eauto 8.
  - intros (resp & fields & -> & -> & Hurl & [<-|[Ha <-]]); simpl.
    + by rewrite Hurl, Hurl.
    + by rewrite Ha, Hurl.
Qed.

(* ===================================================================== *)
(** ** Further properties: the news skill *)
(* ===================================================================== *)

Section NewsSkill.

Variable cfg : Config.
Variable env : Env.
Hypothesis configured : truthy_opt (NEWSAPI_KEY cfg) = true.

Lemma collect_titles (articles : list json) (titles : list string) :
  Forall2 (fun article title =>
             exists fields, article = JObj fields
                            /\ Json.assoc "title" fields = Some (JStr title))
          articles titles ->
  headlines_of env (JArr articles) = inr (map (fun title => "- " +:+ title) titles).
Proof.
  unfold headlines_of. induction 1 as [|a t articles titles (af & -> & Ht) _ IH].
  - done.
  - simpl. unfold mbind at 1, Res_bind at 1. simpl. rewrite Ht. simpl.
    by rewrite IH.
Qed.

Lemma headlines_of_raises_library_error (articles : json) (e : exn) :
  headlines_of env articles = inl e -> library_error e.
Proof.
  unfold headlines_of. destruct articles as [| | | |items|]; try (intros [= <-]; by eexists _, _).
  induction items as [|a items IH]; [discriminate|]. simpl.
  unfold mbind at 1, Res_bind at 1.
  destruct (Json.getitem a "title") as [e'|v] eqn:Hget.
  - intros [= <-]. destruct a as [| | | | |af]; simpl in Hget;
      try (injection Hget as <-; by eexists _, _).
    destruct (Json.assoc "title" af); [discriminate|].
    injection Hget as <-. by eexists _, _.
  - simpl. destruct (collect _) as [e'|l] eqn:Hrest; [|discriminate].
    intros [= <-]. by apply IH.
Qed.

Lemma get_latest_news_answered topic s resp fields :
  newsapi_get env topic = inr resp ->
  status_code resp = 200%Z ->
  json_body resp = inr (JObj fields) ->
  get_latest_news cfg env topic s
  = (let articles := default (JArr []) (Json.assoc "articles" fields) in
     if negb (Json.truthy articles)
     then inr ("No news found for '" +:+ topic +:+ "'.")
     else match headlines_of env articles with
          | inl e => inl e
          | inr headlines =>
              inr ("Here are the top headlines:" +:+ newline
                   +:+ join newline headlines)
          end,
     mkState (chat_history_store s) (uploads s) (trace s ++ [EvNews topic])).
Proof.
  intros Hget Hstatus Hjson. unfold get_latest_news. rewrite configured. simpl.
  unfold mbind, M_bind, log_event, lift, mret, M_ret. simpl.
  rewrite Hget, Hstatus. simpl. rewrite Hjson. simpl.
  destruct (negb (Json.truthy _)); [done|].
  by destruct (headlines_of env _).
Qed.

End NewsSkill.

(** X7: with the key configured and a 200 answer whose [articles] is a
    non-empty list of objects with string titles, the report is the header
    line followed by one [- title] line per article, in the order of the
    answer. *)
Theorem news_headlines_report (cfg : Config) (env : Env) (topic : string)
    (s : State) (resp : HttpResponse) (fields : list (string * json))
    (articles : list json) (titles : list string) :
  truthy_opt (NEWSAPI_KEY cfg) = true ->
  newsapi_get env topic = inr resp ->
  status_code resp = 200%Z ->
  json_body resp = inr (JObj fields) ->
  Json.assoc "articles" fields = Some (JArr articles) ->
  articles <> [] ->
  Forall2 (fun article title =>
             exists afields, article = JObj afields
                             /\ Json.assoc "title" afields = Some (JStr title))
          articles titles ->
  (get_latest_news cfg env topic s).1
  = inr ("Here are the top headlines:" +:+ newline
         +:+ join newline (map (fun title => "- " +:+ title) titles)).
Proof.
  intros Hkey Hget Hstatus Hjson Harticles Hne Htitles.
  rewrite (get_latest_news_answered cfg env Hkey topic s resp fields) by done.
  rewrite Harticles. destruct articles as [|a articles]; [done|].
  cbv beta iota zeta delta [fst from_option id].
  change (Json.truthy (JArr (a :: articles))) with true.
  cbv beta iota delta [negb].
  by rewrite (collect_titles env (a :: articles) titles).
Qed.

Lemma news_headlines_report_witness :
  (get_latest_news Sample.cfg
     (mkEnv (fun _ => "error") (fun _ => "value") "uploads/tmp0.wav" None
            (fun _ => Sample.heard "news: rocq")
            (fun _ => inr "It is sunny.")
            (fun _ => inr (Sample.json_response
                             (JObj [("status", JStr "ok");
                                    ("articles",
                                     JArr [JObj [("title", JStr "Rocq 9 released")];
                                           JObj [("source", JNull);
                                                 ("title", JStr "Proofs at scale")]])])))
            (fun _ => inr (Sample.json_response JNull))
            (fun _ => inr (Sample.json_response JNull)))
     "rocq" Sample.fresh).1
  = inr ("Here are the top headlines:" +:+ newline
         +:+ join newline ["- Rocq 9 released"; "- Proofs at scale"]).
Proof.
  eapply (news_headlines_report Sample.cfg _ "rocq" Sample.fresh _ _ _
            ["Rocq 9 released"; "Proofs at scale"]); try reflexivity.
  - discriminate.
  - repeat constructor; eexists; split; reflexivity.
Defined.

(** X8: with the key configured and a 200 answer that is a JSON object, a
    missing, null or empty [articles] gives [No news found for '<topic>'.]
    with the topic as it was passed, not as it was encoded. *)
Theorem news_none_found (cfg : Config) (env : Env) (topic : string)
    (s : State) (resp : HttpResponse) (fields : list (string * json)) :
  truthy_opt (NEWSAPI_KEY cfg) = true ->
  newsapi_get env topic = inr resp ->
  status_code resp = 200%Z ->
  json_body resp = inr (JObj fields) ->
  Json.truthy (default (JArr []) (Json.assoc "articles" fields)) = false ->
  (get_latest_news cfg env topic s).1
  = inr ("No news found for '" +:+ topic +:+ "'.").
Proof.
  intros Hkey Hget Hstatus Hjson Hnone.
  rewrite (get_latest_news_answered cfg env Hkey topic s resp fields) by done.
  simpl. by rewrite Hnone.
Qed.

Lemma news_none_found_witness :
  (get_latest_news Sample.cfg Sample.silence "xyz" Sample.fresh).1
  = inr "No news found for 'xyz'.".
Proof.
  apply (news_none_found Sample.cfg Sample.silence "xyz" Sample.fresh
           (Sample.json_response (JObj [("articles", JArr [])]))
           [("articles", JArr [])]); reflexivity.
Defined.

(** X9: a status other than 200 gives [News service is currently
    unavailable.] without the body being decoded: the answer is the same
    when the body is not JSON at all. *)
Theorem news_unavailable (cfg : Config) (env : Env) (topic : string)
    (s : State) (resp : HttpResponse) :
  truthy_opt (NEWSAPI_KEY cfg) = true ->
  newsapi_get env topic = inr resp ->
  status_code resp <> 200%Z ->
  get_latest_news cfg env topic s
  = (inr "News service is currently unavailable.",
     mkState (chat_history_store s) (uploads s) (trace s ++ [EvNews topic])).
Proof.
  intros Hkey Hget Hstatus. unfold get_latest_news. rewrite Hkey. simpl.
  unfold mbind, M_bind, log_event, lift, mret, M_ret. simpl.
  rewrite Hget. simpl.
  destruct (Z.eqb_spec (status_code resp) 200); [done|]. done.
Qed.

Lemma news_unavailable_witness :
  get_latest_news Sample.cfg
    (mkEnv (fun _ => "error") (fun _ => "value") "uploads/tmp0.wav" None
           (fun _ => Sample.heard "news: rocq")
           (fun _ => inr "It is sunny.")
           (fun _ => inr (mkHttpResponse 429 "Too Many Requests"
                            (inl (PyError "JSONDecodeError" "Expecting value"))))
           (fun _ => inr (Sample.json_response JNull))
           (fun _ => inr (Sample.json_response JNull)))
    "rocq" Sample.fresh
  = (inr "News service is currently unavailable.",
     mkState ∅ ∅ [EvNews "rocq"]).
Proof.
  apply (news_unavailable Sample.cfg _ "rocq" Sample.fresh
           (mkHttpResponse 429 "Too Many Requests"
              (inl (PyError "JSONDecodeError" "Expecting value"))));
    [reflexivity|reflexivity|discriminate].
Defined.

(** X10: with the key configured and a 200 answer whose [articles] is a
    list, one article without a [title] makes the whole skill raise: no
    report is produced from the other articles. *)
Theorem news_article_without_title (cfg : Config) (env : Env) (topic : string)
    (s : State) (resp : HttpResponse) (fields : list (string * json))
    (articles : list json) (afields : list (string * json)) :
  truthy_opt (NEWSAPI_KEY cfg) = true ->
  newsapi_get env topic = inr resp ->
  status_code resp = 200%Z ->
  json_body resp = inr (JObj fields) ->
  Json.assoc "articles" fields = Some (JArr articles) ->
  JObj afields ∈ articles ->
  Json.assoc "title" afields = None ->
  exists cls msg, (get_latest_news cfg env topic s).1 = inl (PyError cls msg).
Proof.
  intros Hkey Hget Hstatus Hjson Harticles Hin Hnot.
  rewrite (get_latest_news_answered cfg env Hkey topic s resp fields) by done.
  rewrite Harticles.
  destruct articles as [|a articles]; [by apply elem_of_nil in Hin|].
  cbv beta iota zeta delta [fst from_option id].
  change (Json.truthy (JArr (a :: articles))) with true.
  cbv beta iota delta [negb].
  destruct (headlines_of env (JArr (a :: articles))) as [e|headlines] eqn:Hh.
  - destruct (headlines_of_raises_library_error env _ e Hh) as (cls & msg & ->).
    by exists cls, msg.
  - exfalso. unfold headlines_of in Hh.
    destruct (collect_fails
                (map (fun article =>
                        title ← Json.getitem article "title";
                        mret ("- " +:+ match title with
                                       | JStr s0 => s0
                                       | v => json_str env v
                                       end)) (a :: articles))
                (PyError "KeyError" "title")) as [e' He'].
    { apply list_elem_of_fmap. exists (JObj afields). split; [|done].
      unfold mbind, Res_bind. simpl. by rewrite Hnot. }
    rewrite He' in Hh. discriminate.
Qed.

Lemma news_article_without_title_witness :
  exists cls msg,
    (get_latest_news Sample.cfg
       (mkEnv (fun _ => "error") (fun _ => "value") "uploads/tmp0.wav" None
              (fun _ => Sample.heard "news: rocq")
              (fun _ => inr "It is sunny.")
              (fun _ => inr (Sample.json_response
                               (JObj [("articles",
                                       JArr [JObj [("title", JStr "Rocq 9 released")];
                                             JObj [("url", JStr "https://example.org")]])])))
              (fun _ => inr (Sample.json_response JNull))
              (fun _ => inr (Sample.json_response JNull)))
       "rocq" Sample.fresh).1
    = inl (PyError cls msg).
Proof.
  eapply (news_article_without_title Sample.cfg _ "rocq" Sample.fresh _ _ _
            [("url", JStr "https://example.org")]); try reflexivity.
  apply list_elem_of_further, list_elem_of_here.
Defined.

(* ===================================================================== *)
(** ** Further properties: the search skill *)
(* ===================================================================== *)

(** X11: a 200 answer with a truthy [AbstractText] is answered with that
    text as it is, whatever [RelatedTopics] and [Heading] hold. *)
Theorem search_prefers_abstract (env : Env) (get : string -> Res HttpResponse)
    (query : string) (resp : HttpResponse) (fields : list (string * json))
    (abstract : json) :
  get (Skill.search_url query) = inr resp ->
  status_code resp = 200%Z ->
  json_body resp = inr (JObj fields) ->
  Json.assoc "AbstractText" fields = Some abstract ->
  Json.truthy abstract = true ->
  Skill.simple_web_search env get query = inr abstract.
Proof.
  intros Hget Hstatus Hjson Ha Htruthy.
  unfold Skill.simple_web_search, mbind, Res_bind, mret, Res_ret.
  rewrite Hget, Hstatus. simpl. rewrite Hjson. simpl. rewrite Ha. simpl.
  by rewrite Htruthy.
Qed.

Lemma search_prefers_abstract_witness :
  Skill.simple_web_search Sample.silence
    (fun _ => inr (Sample.json_response
                     (JObj [("Heading", JStr "Paris");
                            ("AbstractText", JStr "Paris is the capital of France.");
                            ("RelatedTopics",
                             JArr [JObj [("Text", JStr "Paris, Texas")]])])))
    "capital of France"
  = inr (JStr "Paris is the capital of France.").
Proof.
  eapply (search_prefers_abstract Sample.silence _ "capital of France");
    reflexivity.
Defined.

(** X12: a status other than 200 is answered with [Web search service is
    currently unavailable.]; the body is not decoded. *)
Theorem search_unavailable (env : Env) (get : string -> Res HttpResponse)
    (query : string) (resp : HttpResponse) :
  get (Skill.search_url query) = inr resp ->
  status_code resp <> 200%Z ->
  Skill.simple_web_search env get query
  = inr (JStr "Web search service is currently unavailable.").
Proof.
  intros Hget Hstatus.
  unfold Skill.simple_web_search, mbind, Res_bind, mret, Res_ret.
  rewrite Hget. by destruct (Z.eqb_spec (status_code resp) 200).
Qed.

Lemma search_unavailable_witness :
  Skill.simple_web_search Sample.silence
    (fun _ => inr (mkHttpResponse 503 "Service Unavailable"
                     (inl (PyError "JSONDecodeError" "Expecting value"))))
    "weather today"
  = inr (JStr "Web search service is currently unavailable.").
Proof.
  eapply (search_unavailable Sample.silence _ "weather today");
    [reflexivity|discriminate].
Defined.

(** X13: without a truthy [AbstractText], a first related topic that has the
    key [Text] decides the answer: its value is returned as it is, also when
    it is empty, and neither [FirstURL] nor [Heading] is consulted. *)
Theorem search_first_topic_text (env : Env) (get : string -> Res HttpResponse)
    (query : string) (resp : HttpResponse) (fields tfields : list (string * json))
    (later : list json) (v : json) :
  get (Skill.search_url query) = inr resp ->
  status_code resp = 200%Z ->
  json_body resp = inr (JObj fields) ->
  Json.truthy (default JNull (Json.assoc "AbstractText" fields)) = false ->
  Json.assoc "RelatedTopics" fields = Some (JArr (JObj tfields :: later)) ->
  Json.assoc "Text" tfields = Some v ->
  Skill.simple_web_search env get query = inr v.
Proof.
  intros Hget Hstatus Hjson Ha Htopics Htext.
  unfold Skill.simple_web_search, Skill.first_topic_answer,
    mbind, Res_bind, mret, Res_ret.
  rewrite Hget, Hstatus. simpl. rewrite Hjson. simpl. rewrite Ha. simpl.
  rewrite Htopics. simpl. rewrite Htext.
  by rewrite bool_decide_eq_true_2 by eauto.
Qed.

Lemma search_first_topic_text_witness :
  Skill.simple_web_search Sample.silence
    (fun _ => inr (Sample.json_response
                     (JObj [("AbstractText", JStr "");
                            ("Heading", JStr "Rocq");
                            ("RelatedTopics",
                             JArr [JObj [("Text", JStr "");
                                         ("FirstURL", JStr "https://example.org")]])])))
    "rocq"
  = inr (JStr "").
Proof.
  eapply (search_first_topic_text Sample.silence _ "rocq"); reflexivity.
Defined.

(** X14: a 200 answer of the provider's shape never makes the skill raise:
    when the body is a JSON object whose [RelatedTopics], if present, is a
    list that is empty or starts with an object, an answer is returned. *)
Theorem search_answers_wellformed (env : Env) (get : string -> Res HttpResponse)
    (query : string) (resp : HttpResponse) (fields : list (string * json)) :
  get (Skill.search_url query) = inr resp ->
  status_code resp = 200%Z ->
  json_body resp = inr (JObj fields) ->
  (Json.assoc "RelatedTopics" fields = None
   \/ Json.assoc "RelatedTopics" fields = Some (JArr [])
   \/ exists tfields later,
        Json.assoc "RelatedTopics" fields = Some (JArr (JObj tfields :: later))) ->
  exists answer, Skill.simple_web_search env get query = inr answer.
Proof.
  intros Hget Hstatus Hjson Htopics.
  unfold Skill.simple_web_search, Skill.first_topic_answer,
    mbind, Res_bind, mret, Res_ret.
  rewrite Hget, Hstatus. simpl. rewrite Hjson. simpl.
  destruct (Json.truthy (default JNull (Json.assoc "AbstractText" fields)));
    [by eexists|].
  destruct Htopics as [->|[->|(tfields & later & ->)]]; simpl.
  - destruct (Json.truthy (default JNull (Json.assoc "Heading" fields)));
      by eexists.
  - destruct (Json.truthy (default JNull (Json.assoc "Heading" fields)));
      by eexists.
  - destruct (Json.assoc "Text" tfields) as [v|] eqn:Ht.
    { rewrite bool_decide_eq_true_2 by eauto. by eexists. }
    rewrite bool_decide_eq_false_2 by (by intros [? [=]]).
    destruct (Json.assoc "FirstURL" tfields) as [u|] eqn:Hu.
    { rewrite bool_decide_eq_true_2 by eauto. by eexists. }
    rewrite bool_decide_eq_false_2 by (by intros [? [=]]).
    destruct (Json.truthy (default JNull (Json.assoc "Heading" fields)));
      by eexists.
Qed.

Lemma search_answers_wellformed_witness :
  exists answer,
    Skill.simple_web_search Sample.silence
      (fun _ => inr (Sample.json_response
                       (JObj [("AbstractText", JStr "");
                              ("RelatedTopics",
                               JArr [JObj [("Name", JStr "Science");
                                           ("Topics", JArr [])]])])))
      "rocq"
    = inr answer.
Proof.
  eapply (search_answers_wellformed Sample.silence _ "rocq"); try reflexivity.
  right. right. by eexists _, _.
Defined.

(* ===================================================================== *)
(** ** What the stages of a request leave alone *)
(* ===================================================================== *)

Section Preservation.

Context {X : Type} (proj : State -> X).

Lemma preserves_ret {A} (a : A) : preserves proj (mret a).
Proof. by intros s. Qed.

Lemma preserves_raise {A} (e : exn) : preserves proj (@raise A e).
Proof. by intros s. Qed.

Lemma preserves_lift {A} (r : Res A) : preserves proj (lift r).
Proof. by intros s. Qed.

Lemma preserves_read {A} (f : State -> A) :
  preserves proj (fun s => (inr (f s), s)).
Proof. by intros s. Qed.

Lemma preserves_bind {A B} (m : M A) (f : A -> M B) :
  preserves proj m -> (forall a, preserves proj (f a)) ->
  preserves proj (m ≫= f).
Proof.
  intros Hm Hf s. unfold mbind, M_bind.
  specialize (Hm s). destruct (m s) as [[e|a] s']; simpl in *; [done|].
  by rewrite Hf.
Qed.

Lemma preserves_try_except {A} (body : M A) (handler : exn -> M A) :
  preserves proj body -> (forall e, preserves proj (handler e)) ->
  preserves proj (try_except body handler).
Proof.
  intros Hb Hh s. unfold try_except.
  specialize (Hb s). destruct (body s) as [[e|a] s']; simpl in *; [|done].
  by rewrite Hh.
Qed.

Lemma preserves_try_except_finally {A} (body : M A) (handler : exn -> M A)
    (final : M unit) :
  preserves proj body -> (forall e, preserves proj (handler e)) ->
  preserves proj final ->
  preserves proj (try_except_finally body handler final).
Proof.
  intros Hb Hh Hf s. unfold try_except_finally.
  pose proof (preserves_try_except body handler Hb Hh s) as Hte.
  destruct (try_except body handler s) as [r s1]. simpl in Hte.
  specialize (Hf s1). destruct (final s1) as [[e|u] s2]; simpl in *; congruence.
Qed.

End Preservation.

(** Decomposes a [preserves] goal along the structure of the computation;
    the leaves are the primitive effects, settled by evaluation. *)
Ltac preserves_step :=
  match goal with
  | |- preserves _ (mbind _ _) => apply preserves_bind; [|intros]
  | |- preserves _ (try_except _ _) => apply preserves_try_except; [|intros]
  | |- preserves _ (try_except_finally _ _ _) =>
      apply preserves_try_except_finally; [|intros|]
  | |- preserves _ (if ?b then _ else _) => destruct b
  | |- preserves _ (match ?x with _ => _ end) => destruct x
  | |- preserves _ (mret _) => apply preserves_ret
  | |- preserves _ (raise _) => apply preserves_raise
  | |- preserves _ (lift _) => apply preserves_lift
  | |- preserves _ _ => solve [auto]
  | |- preserves _ (log_event _) => by intros ?
  | |- preserves _ (os_unlink _) =>
      let s := fresh in intros s; unfold os_unlink; by destruct (decide _)
  | |- preserves _ (append_history _ _ _) => by intros ?
  | |- preserves _ (fun _ => _) => by intros ?
  end.

Section EndpointPreservation.

Variable cfg : Config.
Variable env : Env.

Lemma dispatch_murf_preserves {X} (proj : State -> X) (l : list string) :
  (forall st up tr tr', proj (mkState st up tr) = proj (mkState st up tr')) ->
  preserves proj (dispatch_murf l).
Proof.
  intros Htrace s. rewrite dispatch_murf_run. simpl.
  destruct s as [st up tr]. apply Htrace.
Qed.

(** The news skill changes neither the history nor the uploads. *)
Lemma get_latest_news_keeps_store topic :
  preserves chat_history_store (get_latest_news cfg env topic).
Proof. unfold get_latest_news. repeat preserves_step. Qed.

Lemma get_latest_news_keeps_uploads topic :
  preserves uploads (get_latest_news cfg env topic).
Proof. unfold get_latest_news. repeat preserves_step. Qed.

Lemma call_gemini_keeps_store contents :
  preserves chat_history_store (call_gemini env contents).
Proof. unfold call_gemini. repeat preserves_step. Qed.

Lemma call_gemini_keeps_uploads contents :
  preserves uploads (call_gemini env contents).
Proof. unfold call_gemini. repeat preserves_step. Qed.

Lemma synthesize_keeps_store l :
  preserves chat_history_store (synthesize env l).
Proof.
  unfold synthesize.
  pose proof (dispatch_murf_preserves chat_history_store l (fun _ _ _ _ => eq_refl)).
  repeat preserves_step.
Qed.

Lemma synthesize_keeps_uploads l : preserves uploads (synthesize env l).
Proof.
  unfold synthesize.
  pose proof (dispatch_murf_preserves uploads l (fun _ _ _ _ => eq_refl)).
  repeat preserves_step.
Qed.

Lemma route_keeps_uploads sid user_text :
  preserves uploads (route cfg env sid user_text).
Proof.
  unfold route, search_branch, news_branch, conversation_flow,
    reply_and_synthesize.
  pose proof get_latest_news_keeps_uploads.
  pose proof call_gemini_keeps_uploads.
  pose proof synthesize_keeps_uploads.
  repeat preserves_step.
Qed.

Lemma append_history_keeps_other sid other r t :
  other <> sid ->
  preserves (fun s => chat_history_store s !! other) (append_history sid r t).
Proof.
  intros Hne s. simpl. unfold add_message_to_history.
  rewrite lookup_alter_ne by done.
  destruct (chat_history_store s !! sid); [done|].
  by rewrite lookup_insert_ne.
Qed.

Lemma chat_keeps_other_sessions sid other :
  other <> sid ->
  preserves (fun s => chat_history_store s !! other) (chat_with_history cfg env sid).
Proof.
  intros Hne.
  assert (forall r t, preserves (fun s => chat_history_store s !! other)
                                (append_history sid r t)) as Happend
    by (intros; by apply append_history_keeps_other).
  assert (forall A (m : M A), preserves chat_history_store m ->
            preserves (fun s => chat_history_store s !! other) m) as Hweaken
    by (intros A m Hm s; by rewrite Hm).
  pose proof (fun topic => Hweaken _ _ (get_latest_news_keeps_store topic)).
  pose proof (fun c => Hweaken _ _ (call_gemini_keeps_store c)).
  pose proof (fun l => Hweaken _ _ (synthesize_keeps_store l)).
  assert (preserves (fun s => chat_history_store s !! other) (save_upload env)).
  { intros s. unfold save_upload. by destruct (copyfileobj env). }
  unfold chat_with_history, transcribe_upload, route, search_branch,
    news_branch, conversation_flow, reply_and_synthesize.
  repeat preserves_step.
Qed.

End EndpointPreservation.

(* ===================================================================== *)
(** ** Further properties: the paths of a request *)
(* ===================================================================== *)

Lemma news_result_stateless cfg env topic s s' :
  (get_latest_news cfg env topic s).1 = (get_latest_news cfg env topic s').1.
Proof.
  unfold get_latest_news. destruct (negb (truthy_opt (NEWSAPI_KEY cfg))); [done|].
  unfold mbind, M_bind, log_event, lift, mret, M_ret. simpl.
  destruct (newsapi_get env topic) as [e|resp]; [done|].
  destruct (negb (status_code resp =? 200)%Z); [done|].
  destruct (json_body resp) as [e|data]; [done|].
  destruct (Json.get data "articles" (JArr [])) as [e|articles]; [done|].
  destruct (negb (Json.truthy articles)); [done|].
  by destruct (headlines_of env articles).
Qed.

Lemma collect_length {A} (outcomes : list (Res A)) (results : list A) :
  collect outcomes = inr results -> length results = length outcomes.
Proof.
  revert results. induction outcomes as [|[e|a] outcomes IH]; intros results.
  - by intros [= <-].
  - discriminate.
  - simpl. destruct (collect outcomes) as [e|l]; [discriminate|].
    intros [= <-]. simpl. f_equal. by apply IH.
Qed.

(** X15: a search request.  When the skill returns a text, the caller gets
    it as [llm_text] with an empty [audio_url], the session's log gains the
    user message and then the result, and neither the model nor the
    synthesis provider is called; when the skill raises, the exception is
    the request's outcome and the history is unchanged. *)
Theorem search_request (cfg : Config) (env : Env) (sid : string) (s : State)
    (t : Transcript) (p r : string) :
  copyfileobj env = None ->
  transcribe env (temp_path env) = inr t ->
  transcript_rejected t = false ->
  PyStr.strip (default EmptyString (transcript_text t)) = p +:+ r ->
  PyStr.lower p = "search:" ->
  let out := chat_with_history cfg env sid s in
  (forall result, simple_web_search env (PyStr.strip r) = inr result ->
     out.1 = inr (mkChatResponse (p +:+ r) result (JStr ""))
     /\ get_chat_history (chat_history_store out.2) sid
        = get_chat_history (chat_history_store s) sid
          ++ [mkMessage "user" (p +:+ r); mkMessage "model" result]
     /\ trace out.2
        = trace s ++ [EvCreate (temp_path env); EvTranscribe (temp_path env);
                      EvUnlink (temp_path env); EvSearch (PyStr.strip r)])
  /\ (forall e, simple_web_search env (PyStr.strip r) = inl e ->
        out.1 = inl e /\ chat_history_store out.2 = chat_history_store s).
Proof.
  intros Hcopy Htr Hacc Hut Hp out. subst out.
  rewrite (chat_transcribed cfg env sid t s Hcopy Htr), Hacc, Hut.
  rewrite route_search by done. rewrite search_branch_run.
  split.
  - intros result ->. simpl. split; [done|]. split.
    + by rewrite !get_after_add_same, <- app_assoc.
    + by rewrite <- app_assoc.
  - by intros e ->.
Qed.

Lemma search_request_witness :
  (chat_with_history Sample.cfg Sample.asks_search "s1" Sample.fresh).1
  = inr (mkChatResponse "Search: weather today" "It is sunny." (JStr "")).
Proof.
  exact (proj1 (proj1 (search_request Sample.cfg Sample.asks_search "s1"
                         Sample.fresh
                         (mkTranscript (Some " Search: weather today ") None)
                         "Search:" " weather today"
                         eq_refl eq_refl eq_refl eq_refl eq_refl)
                  "It is sunny." eq_refl)).
Defined.

(** X16: a news request.  When the skill returns a report, the caller gets
    it as [llm_text] with an empty [audio_url] and the session's log gains
    the user message and then the report; when the skill raises, the
    exception is the request's outcome and the history is unchanged. *)
Theorem news_request (cfg : Config) (env : Env) (sid : string) (s : State)
    (t : Transcript) (p r : string) :
  copyfileobj env = None ->
  transcribe env (temp_path env) = inr t ->
  transcript_rejected t = false ->
  PyStr.strip (default EmptyString (transcript_text t)) = p +:+ r ->
  PyStr.lower p = "news:" ->
  let out := chat_with_history cfg env sid s in
  (forall report, (get_latest_news cfg env (PyStr.strip r) s).1 = inr report ->
     out.1 = inr (mkChatResponse (p +:+ r) report (JStr ""))
     /\ get_chat_history (chat_history_store out.2) sid
        = get_chat_history (chat_history_store s) sid
          ++ [mkMessage "user" (p +:+ r); mkMessage "model" report])
  /\ (forall e, (get_latest_news cfg env (PyStr.strip r) s).1 = inl e ->
        out.1 = inl e /\ chat_history_store out.2 = chat_history_store s).
Proof.
  intros Hcopy Htr Hacc Hut Hp out. subst out.
  rewrite (chat_transcribed cfg env sid t s Hcopy Htr), Hacc, Hut.
  rewrite route_news by done.
  rewrite (news_result_stateless cfg env _ s (after_transcription env s)).
  unfold news_branch, mbind, M_bind.
  pose proof (get_latest_news_keeps_store cfg env (PyStr.strip r)
                (after_transcription env s)) as Hkeep.
  destruct (get_latest_news cfg env (PyStr.strip r) (after_transcription env s))
    as [[e|report] s'].
  - simpl in *. split; [discriminate|]. by intros e' [= <-].
  - simpl in *. split; [|discriminate]. intros report' [= <-].
    split; [done|]. by rewrite !get_after_add_same, Hkeep, <- app_assoc.
Qed.

Lemma news_request_witness :
  (chat_with_history Sample.cfg
     (Sample.world (Sample.heard "News: xyz") JNull Sample.murf_answer)
     "s1" Sample.fresh).1
  = inr (mkChatResponse "News: xyz" "No news found for 'xyz'." (JStr "")).
Proof.
  exact (proj1 (proj1 (news_request Sample.cfg
                         (Sample.world (Sample.heard "News: xyz") JNull Sample.murf_answer)
                         "s1" Sample.fresh
                         (mkTranscript (Some "News: xyz") None)
                         "News:" " xyz"
                         eq_refl eq_refl eq_refl eq_refl eq_refl)
                  "No news found for 'xyz'." eq_refl)).
Defined.

(** X17: a conversation request whose model call fails: the POST raises,
    the status is not 200, or the body is not JSON.  The request ends with
    the 500 [Gemini call failed: ...]; the user message is in the session's
    log all the same, and no synthesis request is made. *)
Theorem model_call_fails (cfg : Config) (env : Env) (sid : string) (s : State)
    (t : Transcript) :
  copyfileobj env = None ->
  transcribe env (temp_path env) = inr t ->
  transcript_rejected t = false ->
  let user_text := PyStr.strip (default EmptyString (transcript_text t)) in
  let store := add_message_to_history (chat_history_store s) sid "user" user_text in
  let contents := gemini_contents store sid in
  PyStr.startswith (PyStr.lower user_text) "search:" = false ->
  PyStr.startswith (PyStr.lower user_text) "news:" = false ->
  (exists e, gemini_post env contents = inl e)
  \/ (exists resp, gemini_post env contents = inr resp
                   /\ (status_code resp <> 200%Z \/ exists e, json_body resp = inl e)) ->
  let out := chat_with_history cfg env sid s in
  (exists detail,
     out.1 = inl (HTTPException 500 ("Gemini call failed: " +:+ detail)))
  /\ get_chat_history (chat_history_store out.2) sid
     = get_chat_history (chat_history_store s) sid ++ [mkMessage "user" user_text]
  /\ trace out.2
     = trace s ++ [EvCreate (temp_path env); EvTranscribe (temp_path env);
                   EvUnlink (temp_path env); EvGemini contents].
Proof.
  intros Hcopy Htr Hacc user_text store contents Hs Hn Hfail out. subst out.
  rewrite (chat_transcribed cfg env sid t s Hcopy Htr), Hacc.
  fold user_text. unfold route. rewrite Hs, Hn.
  unfold conversation_flow, call_gemini, try_except, mbind, M_bind,
    append_history, log_event, lift, raise.
  simpl. fold store contents.
  assert (get_chat_history store sid
          = get_chat_history (chat_history_store s) sid
            ++ [mkMessage "user" user_text]) as Hlog
    by apply get_after_add_same.
  destruct Hfail as [[e ->]|(resp & -> & [Hstatus|[e Hjson]])]; simpl.
  - split; [by eexists|]. split; [done|]. by rewrite <- app_assoc.
  - destruct (Z.eqb_spec (status_code resp) 200); [done|]. simpl.
    split; [by eexists|]. split; [done|]. by rewrite <- app_assoc.
  - destruct (negb (status_code resp =? 200)%Z); simpl.
    + split; [by eexists|]. split; [done|]. by rewrite <- app_assoc.
    + rewrite Hjson. simpl.
      split; [by eexists|]. split; [done|]. by rewrite <- app_assoc.
Qed.

Lemma model_call_fails_witness :
  let env := mkEnv (fun _ => "error") (fun _ => "value") "uploads/tmp0.wav" None
                   (fun _ => Sample.heard "hello")
                   (fun _ => inr "It is sunny.")
                   (fun _ => inr (Sample.json_response JNull))
                   (fun _ => inr (mkHttpResponse 429 "quota exceeded" (inr JNull)))
                   (fun _ => inr (Sample.json_response JNull)) in
  let out := chat_with_history Sample.cfg env "s1" Sample.fresh in
  (exists detail,
     out.1 = inl (HTTPException 500 ("Gemini call failed: " +:+ detail)))
  /\ get_chat_history (chat_history_store out.2) "s1"
     = get_chat_history (chat_history_store Sample.fresh) "s1"
       ++ [mkMessage "user" "hello"]
  /\ trace out.2
     = trace Sample.fresh
       ++ [EvCreate "uploads/tmp0.wav"; EvTranscribe "uploads/tmp0.wav";
           EvUnlink "uploads/tmp0.wav";
           EvGemini (gemini_contents
                       (add_message_to_history ∅ "s1" "user" "hello") "s1")].
Proof.
  intros env.
  apply (model_call_fails Sample.cfg env "s1" Sample.fresh
           (mkTranscript (Some "hello") None)); try reflexivity.
  right. eexists. split; [reflexivity|]. left. discriminate.
Defined.

(** X18: once a non-empty reply has been extracted, it is in the session's
    log after the user message, and one synthesis request per chunk has been
    made, whatever the synthesis gives: the request then ends either with
    the dict carrying the reply or with the 500 [Murf call failed: ...], in
    which case the log holds a reply the caller never received. *)
Theorem reply_recorded_before_synthesis (cfg : Config) (env : Env)
    (sid : string) (s : State) (t : Transcript) (resp : HttpResponse)
    (llm_data : json) (reply : string) :
  copyfileobj env = None ->
  transcribe env (temp_path env) = inr t ->
  transcript_rejected t = false ->
  let user_text := PyStr.strip (default EmptyString (transcript_text t)) in
  let store := add_message_to_history (chat_history_store s) sid "user" user_text in
  PyStr.startswith (PyStr.lower user_text) "search:" = false ->
  PyStr.startswith (PyStr.lower user_text) "news:" = false ->
  gemini_post env (gemini_contents store sid) = inr resp ->
  status_code resp = 200%Z ->
  json_body resp = inr llm_data ->
  extract_reply llm_data = Some reply ->
  reply <> EmptyString ->
  let out := chat_with_history cfg env sid s in
  get_chat_history (chat_history_store out.2) sid
  = get_chat_history (chat_history_store s) sid
    ++ [mkMessage "user" user_text; mkMessage "model" reply]
  /\ trace out.2
     = trace (after_model_call env sid user_text s) ++ map EvMurf (chunks reply)
  /\ ((exists url, out.1 = inr (mkChatResponse user_text reply url))
      \/ (exists detail,
            out.1 = inl (HTTPException 500 ("Murf call failed: " +:+ detail)))).
Proof.
  intros Hcopy Htr Hacc user_text store Hs Hn Hpost Hok Hjson Hreply Hne out.
  subst out. rewrite (chat_answered cfg env sid s t resp llm_data) by done.
  fold user_text. unfold reply_and_synthesize. rewrite Hreply.
  destruct reply as [|c reply]; [done|].
  set (r := String c reply) in *. simpl.
  unfold mbind, M_bind, append_history, synthesize, try_except, lift, raise.
  unfold mbind, M_bind. rewrite dispatch_murf_run. simpl. fold store.
  assert (get_chat_history (add_message_to_history store sid "model" r) sid
          = get_chat_history (chat_history_store s) sid
            ++ [mkMessage "user" user_text; mkMessage "model" r]) as Hlog.
  { subst store. by rewrite !get_after_add_same, <- app_assoc. }
  destruct (gather (map (generate_murf_audio env) (chunks r))) as [e|urls] eqn:Hg.
  - simpl. split; [done|]. split; [done|]. right. by eexists.
  - destruct urls as [|url rest].
    + apply collect_length in Hg. rewrite length_map in Hg. unfold chunks in Hg.
      rewrite length_chunks_of in Hg.
      assert (0 < String.length r) as Hr by (subst r; simpl; lia).
      pose proof (ceil_div_pos maxlen maxlen_pos _ Hr).
      change (length (@nil json)) with 0 in Hg. lia.
    + simpl. split; [done|]. split; [done|]. left. by eexists.
Qed.

Lemma reply_recorded_before_synthesis_witness :
  let out := chat_with_history Sample.cfg Sample.no_audio "s1" Sample.fresh in
  get_chat_history (chat_history_store out.2) "s1"
  = get_chat_history (chat_history_store Sample.fresh) "s1"
    ++ [mkMessage "user" "hello"; mkMessage "model" "Hi there."]
  /\ trace out.2
     = trace (after_model_call Sample.no_audio "s1" "hello" Sample.fresh)
       ++ map EvMurf (chunks "Hi there.")
  /\ ((exists url, out.1 = inr (mkChatResponse "hello" "Hi there." url))
      \/ (exists detail,
            out.1 = inl (HTTPException 500 ("Murf call failed: " +:+ detail)))).
Proof.
  apply (reply_recorded_before_synthesis Sample.cfg Sample.no_audio "s1"
           Sample.fresh (mkTranscript (Some "hello") None)
           (Sample.json_response (Sample.gemini_answer "Hi there."))
           (Sample.gemini_answer "Hi there.") "Hi there.");
    try reflexivity.
  discriminate.
Defined.

(** X19: when the upload has been copied, the temporary file is gone at the
    end of the request on every path: the uploads directory holds what it
    held before, without that file. *)
Theorem upload_removed_after_request (cfg : Config) (env : Env) (sid : string)
    (s : State) :
  copyfileobj env = None ->
  let out := chat_with_history cfg env sid s in
  uploads out.2 = (uploads s ∪ {[temp_path env]}) ∖ {[temp_path env]}
  /\ temp_path env ∉ uploads out.2.
Proof.
  intros Hcopy out. subst out.
  assert (uploads (chat_with_history cfg env sid s).2
          = (uploads s ∪ {[temp_path env]}) ∖ {[temp_path env]}) as Hup.
  { destruct (transcribe env (temp_path env)) as [e|t] eqn:Htr.
    - by rewrite (chat_transcription_raises cfg env sid e s Hcopy Htr).
    - rewrite (chat_transcribed cfg env sid t s Hcopy Htr).
      destruct (transcript_rejected t); [done|].
      by rewrite route_keeps_uploads. }
  split; [done|]. rewrite Hup.
  apply not_elem_of_difference. right. by apply elem_of_singleton.
Qed.

Lemma upload_removed_after_request_witness :
  let out := chat_with_history Sample.cfg Sample.long_answer "s1" Sample.fresh in
  uploads out.2 = (uploads Sample.fresh ∪ {["uploads/tmp0.wav"]}) ∖ {["uploads/tmp0.wav"]}
  /\ "uploads/tmp0.wav" ∉ uploads out.2.
Proof.
  apply (upload_removed_after_request Sample.cfg Sample.long_answer "s1"
           Sample.fresh). reflexivity.
Defined.

(** X20: when the copy of the upload raises, the request ends with that
    exception before any transcription, and the temporary file, already
    created, is left in the uploads directory. *)
Theorem upload_left_behind (cfg : Config) (env : Env) (sid : string)
    (s : State) (e : exn) :
  copyfileobj env = Some e ->
  let out := chat_with_history cfg env sid s in
  out.1 = inl e
  /\ temp_path env ∈ uploads out.2
  /\ trace out.2 = trace s ++ [EvCreate (temp_path env)]
  /\ chat_history_store out.2 = chat_history_store s.
Proof.
  intros Hcopy out. subst out. rewrite (chat_copy_raises cfg env sid e s Hcopy).
  simpl. repeat split. apply elem_of_union. right. by apply elem_of_singleton.
Qed.

Lemma upload_left_behind_witness :
  let env := mkEnv (fun _ => "error") (fun _ => "value") "uploads/tmp0.wav"
                   (Some (PyError "OSError" "No space left on device"))
                   (fun _ => Sample.heard "hello")
                   (fun _ => inr "It is sunny.")
                   (fun _ => inr (Sample.json_response JNull))
                   (fun _ => inr (Sample.json_response JNull))
                   (fun _ => inr (Sample.json_response JNull)) in
  let out := chat_with_history Sample.cfg env "s1" Sample.fresh in
  out.1 = inl (PyError "OSError" "No space left on device")
  /\ "uploads/tmp0.wav" ∈ uploads out.2
  /\ trace out.2 = trace Sample.fresh ++ [EvCreate "uploads/tmp0.wav"]
  /\ chat_history_store out.2 = chat_history_store Sample.fresh.
Proof.
  intros env.
  apply (upload_left_behind Sample.cfg env "s1" Sample.fresh). reflexivity.
Defined.

(** X21: a request changes no session but its own: the log held under any
    other session id, and whether that id is in the store at all, is as
    before, on every path. *)
Theorem other_sessions_untouched (cfg : Config) (env : Env)
    (sid other : string) (s : State) :
  other <> sid ->
  chat_history_store (chat_with_history cfg env sid s).2 !! other
  = chat_history_store s !! other.
Proof. intros Hne. by apply (chat_keeps_other_sessions cfg env sid other Hne s). Qed.

Lemma other_sessions_untouched_witness :
  chat_history_store
    (chat_with_history Sample.cfg Sample.no_audio "s1" Sample.fresh).2 !! "s2"
  = chat_history_store Sample.fresh !! "s2".
Proof.
  apply (other_sessions_untouched Sample.cfg Sample.no_audio "s1" "s2" Sample.fresh).
  discriminate.
Defined.

(* ===================================================================== *)
(** ** Further properties: what a request appends and how it ends *)
(* ===================================================================== *)

Section LogShape.

Variable cfg : Config.
Variable env : Env.

(** What a computation has appended to the session: nothing, the user
    message, or the user message and then a model message; when it returns
    a dict, both messages, with the texts of the dict. *)
Let appends (sid ut : string) (s : State)
    (out : Res ChatResponse * State) : Prop :=
  exists msgs,
    get_chat_history (chat_history_store out.2) sid
    = get_chat_history (chat_history_store s) sid ++ msgs
    /\ (msgs = []
        \/ msgs = [mkMessage "user" ut]
        \/ exists reply, msgs = [mkMessage "user" ut; mkMessage "model" reply])
    /\ forall resp, out.1 = inr resp ->
         user_text resp = ut
         /\ msgs = [mkMessage "user" ut; mkMessage "model" (llm_text resp)].

Lemma search_branch_appends sid ut q s :
  appends sid ut s (search_branch env sid ut q s).
Proof.
  rewrite search_branch_run. destruct (simple_web_search env q) as [e|result].
  - exists []. simpl. rewrite app_nil_r. split; [done|]. split; [by left|done].
  - exists [mkMessage "user" ut; mkMessage "model" result]. simpl.
    rewrite !get_after_add_same, <- app_assoc. split; [done|].
    split; [right; right; by eexists|]. by intros resp [= <-].
Qed.

Lemma news_branch_appends sid ut topic s :
  appends sid ut s (news_branch cfg env sid ut topic s).
Proof.
  unfold news_branch, mbind, M_bind.
  pose proof (get_latest_news_keeps_store cfg env topic s) as Hkeep.
  destruct (get_latest_news cfg env topic s) as [[e|report] s']; simpl in *.
  - exists []. simpl. rewrite app_nil_r, Hkeep. split; [done|].
    split; [by left|done].
  - exists [mkMessage "user" ut; mkMessage "model" report]. simpl.
    rewrite !get_after_add_same, Hkeep, <- app_assoc. split; [done|].
    split; [right; right; by eexists|]. by intros resp [= <-].
Qed.

Lemma conversation_flow_appends sid ut s :
  appends sid ut s (conversation_flow env sid ut s).
Proof.
  unfold appends, conversation_flow, mbind, M_bind, append_history.
  cbv beta iota.
  set (store := add_message_to_history (chat_history_store s) sid "user" ut).
  set (s2 := mkState store (uploads s) (trace s)).
  change (chat_history_store s2) with store.
  pose proof (call_gemini_keeps_store env (gemini_contents store sid) s2) as Hkeep.
  assert (get_chat_history store sid
          = get_chat_history (chat_history_store s) sid ++ [mkMessage "user" ut])
    as Hlog by apply get_after_add_same.
  destruct (call_gemini env (gemini_contents store sid) s2) as [[e|llm_data] s3];
    simpl in Hkeep |- *.
  { exists [mkMessage "user" ut]. rewrite Hkeep. split; [done|].
    split; [right; by left|done]. }
  unfold reply_and_synthesize.
  destruct (negb (truthy_opt (extract_reply llm_data))).
  { exists [mkMessage "user" ut]. simpl. rewrite Hkeep. split; [done|].
    split; [right; by left|done]. }
  set (reply := default EmptyString (extract_reply llm_data)).
  unfold mbind, M_bind, append_history. cbv beta iota.
  set (s4 := mkState (add_message_to_history (chat_history_store s3) sid "model" reply)
                     (uploads s3) (trace s3)).
  pose proof (synthesize_keeps_store env (chunks reply) s4) as Hkeep'.
  exists [mkMessage "user" ut; mkMessage "model" reply].
  assert (get_chat_history (chat_history_store s4) sid
          = get_chat_history (chat_history_store s) sid
            ++ [mkMessage "user" ut; mkMessage "model" reply]) as Hfinal.
  { subst s4. simpl. by rewrite get_after_add_same, Hkeep, Hlog, <- app_assoc. }
  destruct (synthesize env (chunks reply) s4) as [[e|urls] s5]; simpl in Hkeep' |- *.
  { rewrite Hkeep'. split; [done|]. split; [right; right; by eexists|done]. }
  destruct urls as [|url rest]; simpl; rewrite Hkeep'.
  - split; [done|]. split; [right; right; by eexists|done].
  - split; [done|]. split; [right; right; by eexists|]. by intros resp [= <-].
Qed.

Lemma route_appends sid ut s : appends sid ut s (route cfg env sid ut s).
Proof.
  unfold route.
  destruct (PyStr.startswith (PyStr.lower ut) "search:");
    [apply search_branch_appends|].
  destruct (PyStr.startswith (PyStr.lower ut) "news:");
    [apply news_branch_appends|apply conversation_flow_appends].
Qed.

Lemma accepted_transcript_text (t : Transcript) :
  transcript_rejected t = false ->
  exists raw, transcript_text t = Some raw
              /\ PyStr.strip raw <> EmptyString.
Proof.
  unfold transcript_rejected. intros Hacc.
  apply orb_false_elim in Hacc as [Hacc Hstrip].
  apply orb_false_elim in Hacc as [_ Htext].
  destruct (transcript_text t) as [raw|]; [|discriminate].
  exists raw. split; [done|]. simpl in Hstrip.
  by destruct (PyStr.strip raw).
Qed.

(** What a whole request has appended, and where a returned dict comes
    from. *)
Lemma chat_appends sid s :
  let out := chat_with_history cfg env sid s in
  exists msgs,
    get_chat_history (chat_history_store out.2) sid
    = get_chat_history (chat_history_store s) sid ++ msgs
    /\ (msgs = []
        \/ (exists ut, msgs = [mkMessage "user" ut])
        \/ exists ut reply, msgs = [mkMessage "user" ut; mkMessage "model" reply])
    /\ forall resp, out.1 = inr resp ->
         msgs = [mkMessage "user" (user_text resp);
                 mkMessage "model" (llm_text resp)]
         /\ exists t raw,
              transcribe env (temp_path env) = inr t
              /\ transcript_text t = Some raw
              /\ user_text resp = PyStr.strip raw
              /\ user_text resp <> EmptyString.
Proof.
  intros out. subst out.
  destruct (copyfileobj env) as [e|] eqn:Hcopy.
  { rewrite (chat_copy_raises cfg env sid e s Hcopy). exists []. simpl.
    rewrite app_nil_r. split; [done|]. split; [by left|done]. }
  destruct (transcribe env (temp_path env)) as [e|t] eqn:Htr.
  { rewrite (chat_transcription_raises cfg env sid e s Hcopy Htr). exists [].
    simpl. rewrite app_nil_r. split; [done|]. split; [by left|done]. }
  rewrite (chat_transcribed cfg env sid t s Hcopy Htr).
  destruct (transcript_rejected t) eqn:Hacc.
  { exists []. simpl. rewrite app_nil_r. split; [done|]. split; [by left|done]. }
  destruct (accepted_transcript_text t Hacc) as (raw & Hraw & Hne).
  rewrite Hraw. simpl default.
  destruct (route_appends sid (PyStr.strip raw) (after_transcription env s))
    as (msgs & Hlog & Hshape & Hresp).
  exists msgs. split; [exact Hlog|]. split.
  - destruct Hshape as [->|[->|[reply ->]]]; eauto 6.
  - intros resp Hout. destruct (Hresp resp Hout) as [Hut ->]. rewrite Hut.
    split; [done|]. by exists t, raw.
Qed.

End LogShape.

(** X22: a request appends at most two messages to its session, and only in
    this order: the user message, then a model message. *)
Theorem request_appends_user_then_model (cfg : Config) (env : Env)
    (sid : string) (s : State) :
  exists msgs,
    get_chat_history (chat_history_store (chat_with_history cfg env sid s).2) sid
    = get_chat_history (chat_history_store s) sid ++ msgs
    /\ (msgs = []
        \/ (exists ut, msgs = [mkMessage "user" ut])
        \/ exists ut reply, msgs = [mkMessage "user" ut; mkMessage "model" reply]).
Proof.
  destruct (chat_appends cfg env sid s) as (msgs & Hlog & Hshape & _).
  by exists msgs.
Qed.

(** X23: the dict a request returns agrees with the history: the session's
    log has gained exactly the returned [user_text] as a user message and
    the returned [llm_text] as a model message; the [user_text] is the
    trimmed text of the transcript and is not empty. *)
Theorem returned_texts_are_logged (cfg : Config) (env : Env) (sid : string)
    (s : State) (resp : ChatResponse) :
  (chat_with_history cfg env sid s).1 = inr resp ->
  get_chat_history (chat_history_store (chat_with_history cfg env sid s).2) sid
  = get_chat_history (chat_history_store s) sid
    ++ [mkMessage "user" (user_text resp); mkMessage "model" (llm_text resp)]
  /\ user_text resp <> EmptyString
  /\ exists t raw,
       transcribe env (temp_path env) = inr t
       /\ transcript_text t = Some raw
       /\ user_text resp = PyStr.strip raw.
Proof.
  intros Hout.
  destruct (chat_appends cfg env sid s) as (msgs & Hlog & _ & Hresp).
  destruct (Hresp resp Hout) as (-> & t & raw & Htr & Hraw & Hut & Hne).
  split; [done|]. split; [done|]. by exists t, raw.
Qed.

Lemma returned_texts_are_logged_witness :
  let out := chat_with_history Sample.cfg Sample.long_answer "s1" Sample.fresh in
  let resp := mkChatResponse "tell me a story" Sample.long_reply
                             (JStr "https://murf.example/audio/a.mp3") in
  get_chat_history (chat_history_store out.2) "s1"
  = get_chat_history (chat_history_store Sample.fresh) "s1"
    ++ [mkMessage "user" (user_text resp); mkMessage "model" (llm_text resp)]
  /\ user_text resp <> EmptyString
  /\ exists t raw,
       transcribe Sample.long_answer (temp_path Sample.long_answer) = inr t
       /\ transcript_text t = Some raw
       /\ user_text resp = PyStr.strip raw.
Proof.
  intros out resp.
  apply (returned_texts_are_logged Sample.cfg Sample.long_answer "s1"
           Sample.fresh resp).
  vm_compute. reflexivity.
Defined.

Section Raising.

Context (P : exn -> Prop).

Lemma raises_only_bind {A B} (m : M A) (f : A -> M B) :
  raises_only P m -> (forall a, raises_only P (f a)) -> raises_only P (m ≫= f).
Proof.
  intros Hm Hf s e. unfold mbind, M_bind.
  specialize (Hm s). destruct (m s) as [[e'|a] s']; simpl in *.
  - intros [= <-]. by apply Hm.
  - apply Hf.
Qed.

Lemma raises_only_try_except {A} (body : M A) (handler : exn -> M A) :
  (forall e, raises_only P (handler e)) -> raises_only P (try_except body handler).
Proof.
  intros Hh s e. unfold try_except.
  destruct (body s) as [[e'|a] s']; simpl; [apply Hh|discriminate].
Qed.

Lemma raises_only_try_except_finally {A} (body : M A) (handler : exn -> M A)
    (final : M unit) :
  (forall e, raises_only P (handler e)) -> raises_only P final ->
  raises_only P (try_except_finally body handler final).
Proof.
  intros Hh Hf s e. unfold try_except_finally.
  pose proof (raises_only_try_except body handler Hh s) as Hte.
  destruct (try_except body handler s) as [r s1]. simpl in Hte.
  specialize (Hf s1). destruct (final s1) as [[e'|u] s2]; simpl in *.
  - intros [= <-]. by apply Hf.
  - apply Hte.
Qed.

Lemma raises_only_raise {A} (e : exn) : P e -> raises_only P (@raise A e).
Proof. intros He s e' [= <-]. exact He. Qed.

Lemma raises_only_lift {A} (r : Res A) :
  (forall e, r = inl e -> P e) -> raises_only P (lift r).
Proof. intros Hr s e. simpl. apply Hr. Qed.

End Raising.

Lemma library_error_500 (e : exn) : library_error e -> answered_500 e.
Proof. by intros (cls & msg & ->). Qed.

(** Decomposes a [raises_only answered_500] goal along the structure of the
    computation. *)
Ltac raises_step :=
  match goal with
  | |- raises_only _ (mbind _ _) => apply raises_only_bind; [|intros]
  | |- raises_only _ (try_except _ _) => apply raises_only_try_except; intros
  | |- raises_only _ (try_except_finally _ _ _) =>
      apply raises_only_try_except_finally; [intros|]
  | |- raises_only _ (if ?b then _ else _) => destruct b
  | |- raises_only _ (match ?x with _ => _ end) => destruct x
  | |- raises_only _ (raise _) => by apply raises_only_raise
  | |- raises_only _ (lift _) =>
      apply raises_only_lift; intros; apply library_error_500; solve [eauto]
  | |- raises_only _ _ => solve [auto]
  | |- raises_only _ _ => by intros ? ?
  end.

Section EndpointRaising.

Variable cfg : Config.
Variable env : Env.
Hypothesis providers : providers_raise_library_errors env.

Lemma json_get_raises_library_error j k dflt e :
  Json.get j k dflt = inl e -> library_error e.
Proof. destruct j; simpl; intros [= <-]; by eexists _, _. Qed.

Lemma get_latest_news_raises_500 topic :
  raises_only answered_500 (get_latest_news cfg env topic).
Proof.
  destruct providers as (_ & _ & Hget & Hjson).
  unfold get_latest_news.
  destruct (negb (truthy_opt (NEWSAPI_KEY cfg))); [by intros ? ?|].
  apply raises_only_bind; [by intros ? ?|intros _].
  intros s e. unfold mbind, M_bind, lift. simpl.
  destruct (newsapi_get env topic) as [e'|resp] eqn:Hresp; simpl.
  { intros [= <-]. by eapply library_error_500, Hget. }
  destruct (negb (status_code resp =? 200)%Z); [discriminate|].
  destruct (json_body resp) as [e'|data] eqn:Hdata; simpl.
  { intros [= <-]. by eapply library_error_500, Hjson. }
  destruct (Json.get data "articles" (JArr [])) as [e'|articles] eqn:Ha; simpl.
  { intros [= <-]. by eapply library_error_500, json_get_raises_library_error. }
  destruct (negb (Json.truthy articles)); [discriminate|].
  destruct (headlines_of env articles) as [e'|headlines] eqn:Hh; simpl;
    [|discriminate].
  intros [= <-]. by eapply library_error_500, headlines_of_raises_library_error.
Qed.

Lemma route_raises_500 sid ut : raises_only answered_500 (route cfg env sid ut).
Proof.
  pose proof get_latest_news_raises_500.
  destruct providers as (_ & Hsearch & _ & _).
  unfold route, search_branch, news_branch, conversation_flow,
    reply_and_synthesize, call_gemini, synthesize.
  repeat raises_step.
Qed.

End EndpointRaising.

(** X24: when the exceptions of the libraries are not [HTTPException]s, a
    request is answered with 200, 400 or 500, and with 400 exactly when the
    upload was copied and transcribed and the transcript was rejected. *)
Theorem request_status (cfg : Config) (env : Env) (sid : string) (s : State) :
  providers_raise_library_errors env ->
  let out := chat_with_history cfg env sid s in
  (http_status out.1 = 200%Z \/ http_status out.1 = 400%Z
   \/ http_status out.1 = 500%Z)
  /\ (http_status out.1 = 400%Z
      <-> copyfileobj env = None
          /\ exists t, transcribe env (temp_path env) = inr t
                       /\ transcript_rejected t = true).
Proof.
  intros Hprov out. subst out.
  destruct (copyfileobj env) as [e|] eqn:Hcopy.
  { rewrite (chat_copy_raises cfg env sid e s Hcopy). simpl.
    destruct Hprov as (Hc & _). destruct (Hc e Hcopy) as (cls & msg & ->).
    simpl. split; [auto|]. split; [discriminate|]. by intros [[=] _]. }
  destruct (transcribe env (temp_path env)) as [e|t] eqn:Htr.
  { rewrite (chat_transcription_raises cfg env sid e s Hcopy Htr). simpl.
    split; [auto|]. split; [discriminate|]. by intros [_ (t & [=] & _)]. }
  rewrite (chat_transcribed cfg env sid t s Hcopy Htr).
  destruct (transcript_rejected t) eqn:Hacc.
  { simpl. split; [auto|]. split; [|done]. intros _. split; [done|]. by exists t. }
  pose proof (route_raises_500 cfg env Hprov sid
                (PyStr.strip (default EmptyString (transcript_text t)))
                (after_transcription env s)) as Hroute.
  destruct (route cfg env sid _ (after_transcription env s)) as [[e|resp] s'];
    simpl in *.
  - specialize (Hroute e eq_refl). unfold answered_500 in Hroute. simpl in Hroute.
    rewrite Hroute. split; [auto|]. split; [discriminate|].
    intros [_ (t' & [= <-] & Hrej)]. congruence.
  - split; [auto|]. split; [discriminate|].
    intros [_ (t' & [= <-] & Hrej)]. congruence.
Qed.

Lemma request_status_witness :
  let out := chat_with_history Sample.cfg Sample.silence "s1" Sample.fresh in
  (http_status out.1 = 200%Z \/ http_status out.1 = 400%Z
   \/ http_status out.1 = 500%Z)
  /\ (http_status out.1 = 400%Z
      <-> copyfileobj Sample.silence = None
          /\ exists t, transcribe Sample.silence (temp_path Sample.silence) = inr t
                       /\ transcript_rejected t = true).
Proof.
  apply (request_status Sample.cfg Sample.silence "s1" Sample.fresh).
  repeat split; try discriminate.
  intros topic resp e [= <-]. discriminate.
Defined.

(* ===================================================================== *)
(** ** Further properties: startup *)
(* ===================================================================== *)

Lemma startup_as_check (getenv : string -> option string) :
  startup getenv
  = (_ ← check_keys (map (fun name => (name, getenv name)) key_names);
     mret (mkConfig (getenv "ASSEMBLYAI_API_KEY") (getenv "MURF_API_KEY")
                    (getenv "GEMINI_API_KEY") (getenv "NEWSAPI_KEY"))).
Proof. reflexivity. Qed.

Lemma check_keys_all_set (getenv : string -> option string) (names : list string) :
  check_keys (map (fun name => (name, getenv name)) names) = inr tt
  <-> Forall (fun name => truthy_opt (getenv name) = true) names.
Proof.
  induction names as [|name names IH]; simpl.
  - split; [by constructor|done].
  - destruct (truthy_opt (getenv name)) eqn:Hname; simpl.
    + rewrite IH. split; [by constructor|]. by inversion 1.
    + split; [discriminate|]. inversion 1; congruence.
Qed.

Lemma check_keys_first_unset (getenv : string -> option string)
    (before after : list string) (name : string) :
  Forall (fun n => truthy_opt (getenv n) = true) before ->
  truthy_opt (getenv name) = false ->
  check_keys (map (fun n => (n, getenv n)) (before ++ name :: after))
  = inl (PyError "RuntimeError" (name +:+ " not set in environment")).
Proof.
  intros Hbefore Hname. induction Hbefore as [|n before Hn _ IH]; simpl.
  - by rewrite Hname.
  - by rewrite Hn.
Qed.

(** X25: startup succeeds exactly when each of the four keys is set to a
    non-empty value, and the configuration then holds the four values of
    the environment. *)
Theorem startup_succeeds_iff (getenv : string -> option string) (cfg : Config) :
  startup getenv = inr cfg
  <-> Forall (fun name => truthy_opt (getenv name) = true) key_names
      /\ cfg = mkConfig (getenv "ASSEMBLYAI_API_KEY") (getenv "MURF_API_KEY")
                        (getenv "GEMINI_API_KEY") (getenv "NEWSAPI_KEY").
Proof.
  rewrite startup_as_check. unfold mbind, Res_bind, mret, Res_ret.
  pose proof (check_keys_all_set getenv key_names) as Hall.
  destruct (check_keys (map (fun name => (name, getenv name)) key_names))
    as [e|[]].
  - split; [discriminate|]. intros [Hset _]. apply Hall in Hset. discriminate.
  - split.
    + intros [= <-]. split; [by apply Hall|done].
    + by intros [_ ->].
Qed.

(** X26: when a key is unset or empty, startup raises [RuntimeError] naming
    the first such key in the order ASSEMBLYAI_API_KEY, MURF_API_KEY,
    GEMINI_API_KEY, NEWSAPI_KEY; the keys after it are not looked at. *)
Theorem startup_names_first_unset_key (getenv : string -> option string)
    (before after : list string) (name : string) :
  key_names = before ++ name :: after ->
  Forall (fun n => truthy_opt (getenv n) = true) before ->
  truthy_opt (getenv name) = false ->
  startup getenv
  = inl (PyError "RuntimeError" (name +:+ " not set in environment")).
Proof.
  intros Hnames Hbefore Hname.
  rewrite startup_as_check, Hnames.
  by rewrite (check_keys_first_unset getenv before after name).
Qed.

Lemma startup_names_first_unset_key_witness :
  startup (fun name => if decide (name = "ASSEMBLYAI_API_KEY") then Some "k"
                       else if decide (name = "MURF_API_KEY") then Some ""
                       else None)
  = inl (PyError "RuntimeError" "MURF_API_KEY not set in environment").
Proof.
  apply (startup_names_first_unset_key _ ["ASSEMBLYAI_API_KEY"]
           ["GEMINI_API_KEY"; "NEWSAPI_KEY"] "MURF_API_KEY").
  - reflexivity.
  - repeat constructor.
  - reflexivity.
Defined.

(* ===================================================================== *)
(** ** Further properties: empty answers *)
(* ===================================================================== *)

(** X27: a model answer whose first part holds only whitespace is treated
    like a missing reply: the request ends with the 500 [LLM reply missing
    or empty], nothing is synthesised and no model message is logged. *)
Theorem whitespace_reply_is_missing (cfg : Config) (env : Env) (sid : string)
    (s : State) (t : Transcript) (resp : HttpResponse)
    (fields cfields content_fields pfields : list (string * json))
    (later_candidates later_parts : list json) (txt : string) :
  copyfileobj env = None ->
  transcribe env (temp_path env) = inr t ->
  transcript_rejected t = false ->
  let user_text := PyStr.strip (default EmptyString (transcript_text t)) in
  let store := add_message_to_history (chat_history_store s) sid "user" user_text in
  PyStr.startswith (PyStr.lower user_text) "search:" = false ->
  PyStr.startswith (PyStr.lower user_text) "news:" = false ->
  gemini_post env (gemini_contents store sid) = inr resp ->
  status_code resp = 200%Z ->
  json_body resp = inr (JObj fields) ->
  Json.assoc "candidates" fields = Some (JArr (JObj cfields :: later_candidates)) ->
  Json.assoc "content" cfields = Some (JObj content_fields) ->
  Json.assoc "parts" content_fields = Some (JArr (JObj pfields :: later_parts)) ->
  Json.assoc "text" pfields = Some (JStr txt) ->
  (forall c, c ∈ chars txt -> PyStr.isspace c = true) ->
  chat_with_history cfg env sid s
  = (inl (HTTPException 500 "LLM reply missing or empty"),
     after_model_call env sid user_text s).
Proof.
  intros Hcopy Htr Hacc user_text store Hs Hn Hpost Hok Hjson Hc Hcontent Hparts
    Htext Hspaces.
  rewrite (chat_answered cfg env sid s t resp (JObj fields)) by done.
  fold user_text. apply reply_missing. unfold extract_reply.
  rewrite (extract_reply_body_at_first_part fields cfields content_fields pfields
             later_candidates later_parts Hc Hcontent Hparts), Htext.
  simpl. by rewrite (strip_spaces txt Hspaces).
Qed.

Lemma whitespace_reply_is_missing_witness :
  let env := Sample.world (Sample.heard "hello") (Sample.gemini_answer "  ")
                          Sample.murf_answer in
  chat_with_history Sample.cfg env "s1" Sample.fresh
  = (inl (HTTPException 500 "LLM reply missing or empty"),
     after_model_call env "s1" "hello" Sample.fresh).
Proof.
  intros env.
  eapply (whitespace_reply_is_missing Sample.cfg env "s1" Sample.fresh
            (mkTranscript (Some "hello") None) _ _ _ _ _ _ _ "  ");
    try reflexivity.
  intros c Hc. simpl in Hc.
  repeat (apply elem_of_cons in Hc as [->|Hc]; [reflexivity|]).
  by apply elem_of_nil in Hc.
Defined.

(** X28: a 200 search answer with no truthy [AbstractText] and no related
    topic is answered from [Heading] when it is truthy, and otherwise with
    [No direct answer found, try refining your query.] *)
Theorem search_without_topics (env : Env) (get : string -> Res HttpResponse)
    (query : string) (resp : HttpResponse) (fields : list (string * json)) :
  get (Skill.search_url query) = inr resp ->
  status_code resp = 200%Z ->
  json_body resp = inr (JObj fields) ->
  Json.truthy (default JNull (Json.assoc "AbstractText" fields)) = false ->
  Json.truthy (default (JArr []) (Json.assoc "RelatedTopics" fields)) = false ->
  Skill.simple_web_search env get query
  = inr (JStr (let heading := default JNull (Json.assoc "Heading" fields) in
               if Json.truthy heading
               then "I found something about " +:+ Skill.format_value env heading
                    +:+ ", but details are limited."
               else "No direct answer found, try refining your query.")).
Proof.
  intros Hget Hstatus Hjson Ha Htopics.
  unfold Skill.simple_web_search, Skill.first_topic_answer,
    mbind, Res_bind, mret, Res_ret.
  rewrite Hget, Hstatus. simpl. rewrite Hjson. simpl. rewrite Ha. simpl.
  rewrite Htopics. simpl.
  by destruct (Json.truthy (default JNull (Json.assoc "Heading" fields))).
Qed.

Lemma search_without_topics_witness :
  Skill.simple_web_search Sample.silence
    (fun _ => inr (Sample.json_response
                     (JObj [("AbstractText", JStr "");
                            ("Heading", JStr "Rocq");
                            ("RelatedTopics", JArr [])])))
    "rocq"
  = inr (JStr "I found something about Rocq, but details are limited.").
Proof.
  exact (search_without_topics Sample.silence _ "rocq"
           (Sample.json_response
              (JObj [("AbstractText", JStr ""); ("Heading", JStr "Rocq");
                     ("RelatedTopics", JArr [])]))
           [("AbstractText", JStr ""); ("Heading", JStr "Rocq");
            ("RelatedTopics", JArr [])]
           eq_refl eq_refl eq_refl eq_refl eq_refl).
Defined.
